(** * streaks.json: the daily habit-state engine

    A shallow embedding of the daemon and notification code of the
    repository:

    - [src/scripts/daemons.ts]: [setBreakdays] (the Breakday Reconciler);
    - [src/scripts/notifications/notifications.ts]: [sendReminders] and
      [sendCongratulation] (the decision engine and the dispatch of a batch);
    - the [User] class: [getUsers], [User.getCalendars], [User.addCalendar].

    Conventions of the embedding.

    - A calendar day (the key ['YYYY-MM-DD'] of a day map) is the number of
      days since 1970-01-01, a [Z]; [dateString] and
      [moment().format('YYYY-MM-DD')] are the injection of that number into
      strings and are not represented.
    - Mongo object ids are [positive] numbers.
    - The document store, the console and the Matrix channel form the
      [World]; every asynchronous function is a [Promise]: a function from
      the world to an [Outcome] and the world after it.
    - The faults of the environment (a store request that fails, a send that
      fails) are read from an [Env].
    - The clock is read once for a run: every [new Date()] and [moment()] of
      a run gives the same [Clock].
    - The updates of the reconciler run side by side in the program; each
      has its own handlers, and here they settle one after the other, in the
      order in which they were started.
    - A send of the engine is in flight from the moment it is pushed to
      [notificationsPromises]: the service may answer it while the sweep is
      still awaiting the store, before [Promise.allSettled] has attached a
      handler to its promise. A [Network] says at which [await] each answer
      arrives; a rejection that arrives before the handler is an unhandled
      rejection, on which Node ends the process with status 1. *)

From Stdlib Require Import ZArith String Ascii List Lia.
From stdpp Require Import base option list gmap strings.

(** ** Data model *)

Abbreviation ObjectId := positive (only parsing).

(** Modelled from the spec: the status of a day, one of [success], [fail],
    [breakday] (the declaration of [ICalendar] has no source at hand; the
    code compares the stored value with the literals ['success']
    and ['fail'] and writes ['breakday']). Every status is a non-empty
    string, hence truthy in JavaScript. *)
Inductive DayState : Type :=
  | Success
  | Fail
  | Breakday.

(** [notifications: {reminders, congrats}] of a calendar document. *)
Record CalendarNotifications : Type := mkCalendarNotifications {
  reminders : bool;
  congrats : bool
}.

(** A calendar document of the store ([MCalendar]); its [_id] is the key
    under which the store holds it. [agenda] is an array of numbers indexed
    by weekday, [days] a [Map] from day to status. *)
Record ICalendar : Type := mkICalendar {
  ic_name : string;
  ic_user_id : ObjectId;
  ic_agenda : list Z;
  ic_days : gmap Z DayState;
  ic_notifications : option CalendarNotifications
}.

(** The [Calendar] object: [new Calendar(db_calendar._id)] followed by
    [calendar.init(db_calendar)]. *)
Record Calendar : Type := mkCalendar {
  cal_id : ObjectId;
  cal_doc : ICalendar
}.

(** [notifications.matrix] of a user: each field may be missing. *)
Record MatrixSettings : Type := mkMatrixSettings {
  room_id : option string;
  start_date : option string;
  end_date : option string
}.

(** [notifications.streaks_done] of a user. *)
Record StreaksDone : Type := mkStreaksDone {
  enabled : bool;
  channel : string;
  sent_today : bool
}.

Record UserNotifications : Type := mkUserNotifications {
  matrix : MatrixSettings;
  streaks_done : StreaksDone
}.

(** A user document of the store ([MUser]), without the credentials. *)
Record IUser : Type := mkIUser {
  iu_username : string;
  iu_notifications : option UserNotifications
}.

(** The [User] class: [id] and [weekStartsMonday] come from the constructor,
    the other attributes from [init]. *)
Record User : Type := mkUser {
  initialized : bool;
  usr_id : ObjectId;
  weekStartsMonday : bool;
  usr_username : option string;
  usr_notifications : option UserNotifications
}.

(** The rejection value [{code, message}]. *)
Record Error : Type := mkError {
  code : Z;
  message : string
}.

(** ** Time source *)

(** The clock read by [new Date()] and [moment()]: the current day and the
    minute of the day. *)
Record Clock : Type := mkClock {
  today : Z;
  minutes : nat
}.

(** [Date.getDay()]: 0 is Sunday; 1970-01-01 was a Thursday. *)
Definition getDay (d : Z) : nat := Z.to_nat ((d + 4) mod 7).

(** JavaScript truthiness of a number; an index out of range reads
    [undefined], which is falsy. *)
Definition truthy_number (o : option Z) : bool :=
  match o with
  | Some z => negb (z =? 0)%Z
  | None => false
  end.

(** [agenda[weekday]] as a condition. *)
Definition agenda_expected (agenda : list Z) (weekday : nat) : bool :=
  truthy_number (agenda !! weekday).

(** JavaScript truthiness of a possibly missing string. *)
Definition truthy_string (o : option string) : bool :=
  match o with
  | Some s => negb (String.eqb s "")
  | None => false
  end.

(** [s ?? d] *)
Definition nullish {A : Type} (o : option A) (d : A) : A :=
  match o with
  | Some a => a
  | None => d
  end.

Definition digit (c : ascii) : option nat :=
  let n := nat_of_ascii c in
  if ((48 <=? n) && (n <=? 57))%nat then Some (n - 48)%nat else None.

(** Minutes since midnight of an ['HH:MM'] string. *)
Definition parse_hhmm (s : string) : option nat :=
  match s with
  | String h1 (String h2 (String sep (String m1 (String m2 EmptyString)))) =>
      match digit h1, digit h2, digit m1, digit m2 with
      | Some a, Some b, Some c, Some d =>
          if Ascii.eqb sep ":" then Some ((10 * a + b) * 60 + (10 * c + d))%nat
          else None
      | _, _, _, _ => None
      end
  | _ => None
  end.

(** Modelled from the spec: [hour_between] of [utils] has no source at
    hand. The window [start]..[end] contains the current time
    of day; it wraps around midnight when [end < start]. A bound that is not
    an ['HH:MM'] string gives no window. *)
Definition hour_between (clk : Clock) (start end_ : string) : bool :=
  match parse_hhmm start, parse_hhmm end_ with
  | Some s, Some e =>
      if (e <? s)%nat
      then ((s <=? minutes clk) || (minutes clk <=? e))%nat
      else ((s <=? minutes clk) && (minutes clk <=? e))%nat
  | _, _ => false
  end.

(** ** Streak counter *)

(** The days of a day map that hold a status. *)
Definition recorded_days (days : gmap Z DayState) : list Z :=
  (map_to_list days).*1.

(** The most recent recorded day that is not in the future. *)
Definition latest_recorded (clk : Clock) (days : gmap Z DayState) : option Z :=
  foldr (fun d acc =>
           if (d <=? today clk)%Z
           then Some (match acc with Some m => Z.max d m | None => d end)
           else acc)
        None (recorded_days days).

(** The first recorded day. *)
Definition earliest_recorded (days : gmap Z DayState) : option Z :=
  foldr (fun d acc => Some (match acc with Some m => Z.min d m | None => d end))
        None (recorded_days days).

(** The backward walk, one day at a time, for at most [fuel] days. *)
Fixpoint walk_back (agenda : list Z) (days : gmap Z DayState)
    (fuel : nat) (d : Z) (streaks : nat) : nat :=
  match fuel with
  | O => streaks
  | S fuel' =>
      if agenda_expected agenda (getDay d) then
        match days !! d with
        | Some Success => walk_back agenda days fuel' (d - 1)%Z (S streaks)
        | Some Breakday => walk_back agenda days fuel' (d - 1)%Z streaks
        | Some Fail => streaks
        | None => streaks
        end
      else walk_back agenda days fuel' (d - 1)%Z streaks
  end.

(** Modelled from the spec: [countStreaks] of [utils] (and the method of the
    same name of [Calendar]) has no source at hand. The walk
    starts at the most recent recorded day that is not in the future and goes
    backward; on a day the agenda expects, [success] counts and continues,
    [fail] or no status ends the walk; a [breakday] and the days the agenda
    does not expect are skipped. Before the
    first recorded day no status is left to count, so the walk stops there:
    the result is that of the unbounded walk whenever that one ends. *)
Definition countStreaks (clk : Clock) (calendar : Calendar) : nat :=
  let days := ic_days (cal_doc calendar) in
  match latest_recorded clk days, earliest_recorded days with
  | Some start, Some first =>
      walk_back (ic_agenda (cal_doc calendar)) days
                (Z.to_nat (start - first + 1)) start 0
  | _, _ => 0
  end.

(** ** The world and its promises *)

(** One line of a reminder: [{name, fail, streaks}]. *)
Record SummaryEntry : Type := mkSummaryEntry {
  sum_name : string;
  sum_fail : bool;
  sum_streaks : nat
}.

(** What the Matrix service is asked to send: [sendReminder(room, sum)],
    [sendStreaksDone(room)], [sendCongratulation(room, calendar)]. *)
Inductive Message : Type :=
  | Reminder (room : string) (sum : list SummaryEntry)
  | StreaksDoneMessage (room : string)
  | Congratulation (room : string) (calendar : Calendar).

(** What happens on the Matrix channel. A send carries the id of the user
    for whom it was started: a label of the model, the room alone does not
    name the user. *)
Inductive MatrixEvent : Type :=
  | Connected
  | SendStarted (uid : ObjectId) (m : Message)
  | SendSettled (uid : ObjectId) (m : Message) (ok : bool)
  | Disconnected.

(** The faults of one run: the request that fails answers with its error.
    [MATRIX_ENABLED] is the variable of the process environment. *)
Record Env : Type := mkEnv {
  MATRIX_ENABLED : bool;
  find_calendars_error : option Error;
  update_calendar_error : ObjectId -> option Error;
  find_users_error : option Error;
  find_user_error : ObjectId -> option Error;
  find_user_calendars_error : ObjectId -> option Error;
  update_user_error : ObjectId -> option Error;
  save_calendar_error : option Error;
  send_error : ObjectId -> Message -> option Error
}.

Record World : Type := mkWorld {
  w_calendars : gmap positive ICalendar;
  w_users : gmap positive IUser;
  w_console : list string;
  w_matrix : list MatrixEvent
}.

(** How a promise ends. [Exited] is [process.exit(code)]: nothing runs after
    it, no handler sees it. *)
Inductive Outcome (A : Type) : Type :=
  | Fulfilled (a : A)
  | Rejected (err : Error)
  | Exited (status : Z).

Arguments Fulfilled {A} a.
Arguments Rejected {A} err.
Arguments Exited {A} status.

Definition Promise (A : Type) : Type := World -> Outcome A * World.

Definition resolve {A : Type} (a : A) : Promise A :=
  fun w => (Fulfilled a, w).

Definition reject {A : Type} (err : Error) : Promise A :=
  fun w => (Rejected err, w).

Definition process_exit {A : Type} (status : Z) : Promise A :=
  fun w => (Exited status, w).

(** [p.then(f)], and [const x = await p; f x] in an [async] function. *)
Definition then_ {A B : Type} (p : Promise A) (f : A -> Promise B) : Promise B :=
  fun w =>
    match p w with
    | (Fulfilled a, w') => f a w'
    | (Rejected err, w') => (Rejected err, w')
    | (Exited status, w') => (Exited status, w')
    end.

(** [p.catch(h)] *)
Definition catch_ {A : Type} (p : Promise A) (h : Error -> Promise A) : Promise A :=
  fun w =>
    match p w with
    | (Rejected err, w') => h err w'
    | r => r
    end.

(** [p.finally(k)]: [k] runs however [p] settles; the outcome is that of
    [p] unless [k] itself fails. *)
Definition finally_ {A : Type} (p : Promise A) (k : Promise unit) : Promise A :=
  fun w =>
    match p w with
    | (Exited status, w') => (Exited status, w')
    | (o, w') =>
        match k w' with
        | (Fulfilled _, w'') => (o, w'')
        | (Rejected err, w'') => (Rejected err, w'')
        | (Exited status, w'') => (Exited status, w'')
        end
    end.

(** [Promise.allSettled(ps)]: every promise of the list is run to its end;
    a rejection is an element of the result, never the outcome. *)
Fixpoint allSettled {A : Type} (ps : list (Promise A)) : Promise (list (Outcome A)) :=
  match ps with
  | [] => resolve []
  | p :: ps' =>
      fun w =>
        match p w with
        | (Exited status, w') => (Exited status, w')
        | (o, w') =>
            match allSettled ps' w' with
            | (Fulfilled os, w'') => (Fulfilled (o :: os), w'')
            | (Rejected err, w'') => (Rejected err, w'')
            | (Exited status, w'') => (Exited status, w'')
            end
        end
  end.

Notation "'await' x <~ p ;; k" := (then_ p (fun x => k))
  (at level 10, x name, p at level 99, k at level 200, only parsing).
Notation "'run' p ;; k" := (then_ p (fun _ => k))
  (at level 10, p at level 99, k at level 200, only parsing).

(** [console.error(line)] *)
Definition console_error (line : string) : Promise unit :=
  fun w => (Fulfilled tt,
            mkWorld (w_calendars w) (w_users w) (w_console w ++ [line]) (w_matrix w)).

(** One more event on the Matrix channel. *)
Definition matrix_event (e : MatrixEvent) : Promise unit :=
  fun w => (Fulfilled tt,
            mkWorld (w_calendars w) (w_users w) (w_console w) (w_matrix w ++ [e])).

(** A request that fails when the environment says so. *)
Definition request (fault : option Error) : Promise unit :=
  match fault with
  | Some err => reject err
  | None => resolve tt
  end.

(** ** Store operations *)

(** Modelled from the spec: [getCalendars] of [database] (every calendar of
    the store) has no source at hand; the store answers with
    all its calendar documents or fails. *)
Definition getCalendars (env : Env) : Promise (list (positive * ICalendar)) :=
  run request (find_calendars_error env) ;;
  fun w => (Fulfilled (map_to_list (w_calendars w)), w).

(** The document after [days.set(date, state)]. *)
Definition set_day (date : Z) (state : DayState) (doc : ICalendar) : ICalendar :=
  mkICalendar (ic_name doc) (ic_user_id doc) (ic_agenda doc)
              (<[date := state]> (ic_days doc)) (ic_notifications doc).

(** Modelled from the spec: [setDayState] of the [User] of [database] has no
    source at hand. It persists the entry [date -> state] of
    the calendar and has no other effect; it fails when the store does, or
    when the store has no such calendar. *)
Definition setDayState (env : Env) (calendar_id : positive) (date : Z)
    (state : DayState) : Promise unit :=
  run request (update_calendar_error env calendar_id) ;;
  fun w =>
    match w_calendars w !! calendar_id with
    | None => (Rejected (mkError 404 "Calendar doesn't exists"), w)
    | Some doc =>
        (Fulfilled tt,
         mkWorld (<[calendar_id := set_day date state doc]> (w_calendars w))
                 (w_users w) (w_console w) (w_matrix w))
    end.

(** ** The Breakday Reconciler *)

(** [days.get(date) != "success"] *)
Definition not_success (o : option DayState) : bool :=
  match o with
  | Some Success => false
  | _ => true
  end.

(** The promise pushed for one calendar (the body of the [forEach]). *)
Definition breakday_promise (clk : Clock) (env : Env)
    (db_calendar : positive * ICalendar) : Promise unit :=
  let weekday := getDay (today clk) in
  if negb (agenda_expected (ic_agenda db_calendar.2) weekday) then
    if not_success (ic_days db_calendar.2 !! today clk) then
      finally_
        (catch_ (setDayState env db_calendar.1 (today clk) Breakday)
                (fun err => console_error ("Daemons: " +:+ message err)))
        (resolve tt)
    else resolve tt
  else resolve tt.

Definition setBreakdays (clk : Clock) (env : Env) : Promise unit :=
  catch_
    (await db_calendars <~ getCalendars env ;;
     let promisesList := map (breakday_promise clk env) db_calendars in
     run allSettled promisesList ;;
     resolve tt)
    (fun err =>
       run console_error ("Daemons: " +:+ message err) ;;
       resolve tt).

(** ** The [User] class *)

(** [new User(id)] *)
Definition new_User (id : positive) : User :=
  mkUser false id true None None.

(** [user.init(db_user)] *)
Definition init (this : User) (user : IUser) : User :=
  mkUser true (usr_id this) (weekStartsMonday this)
         (Some (iu_username user)) (iu_notifications user).

(** [new Calendar(db_calendar._id)] and [calendar.init(db_calendar)] *)
Definition calendar_of (db_calendar : positive * ICalendar) : Calendar :=
  mkCalendar db_calendar.1 db_calendar.2.

Definition user_of (db_user : positive * IUser) : User :=
  init (new_User db_user.1) db_user.2.

(** The guard of every method of [User]. *)
Definition not_initialized {A : Type} : Promise A :=
  run console_error "The user has not been initialized." ;;
  process_exit 1.

(** [getUsers()]: every user of the instance. *)
Definition getUsers (env : Env) : Promise (list User) :=
  fun w =>
    match find_users_error env with
    | Some err => (Rejected (mkError 500 (message err)), w)
    | None => (Fulfilled (map user_of (map_to_list (w_users w))), w)
    end.

(** [getUserById(id)] *)
Definition getUserById (env : Env) (id : positive) : Promise User :=
  fun w =>
    match find_user_error env id with
    | Some err => (Rejected (mkError 500 (message err)), w)
    | None =>
        match w_users w !! id with
        | None => (Rejected (mkError 404 "User doesn't exists"), w)
        | Some db_user => (Fulfilled (user_of (id, db_user)), w)
        end
    end.

(** [user.getCalendars()]: the calendars whose [user_id] is the user's. *)
Definition User_getCalendars (env : Env) (this : User) : Promise (list Calendar) :=
  if negb (initialized this) then not_initialized
  else
    fun w =>
      match find_user_calendars_error env (usr_id this) with
      | Some err => (Rejected (mkError 500 (message err)), w)
      | None =>
          (Fulfilled
             (map calendar_of
                  (filter (fun db_calendar => ic_user_id db_calendar.2 = usr_id this)
                          (map_to_list (w_calendars w)))), w)
      end.

(** The document built by [addCalendar]. *)
Definition new_calendar_doc (name : string) (user_id : positive) : ICalendar :=
  mkICalendar name user_id [1; 1; 1; 1; 1; 1; 1]%Z ∅
              (Some (mkCalendarNotifications true true)).

(** [new MCalendar(doc).save(...)]: the store gives the document an id of
    its own. *)
Definition save_calendar (env : Env) (doc : ICalendar) : Promise (positive * ICalendar) :=
  fun w =>
    match save_calendar_error env with
    | Some err => (Rejected (mkError 500 (message err)), w)
    | None =>
        let _id := fresh (dom (w_calendars w)) in
        (Fulfilled (_id, doc),
         mkWorld (<[_id := doc]> (w_calendars w)) (w_users w)
                 (w_console w) (w_matrix w))
    end.

(** [user.addCalendar(name)] *)
Definition addCalendar (env : Env) (this : User) (name : string) : Promise Calendar :=
  if negb (initialized this) then not_initialized
  else
    catch_
      (await user <~ getUserById env (usr_id this) ;;
       await data <~ save_calendar env (new_calendar_doc name (usr_id user)) ;;
       resolve (calendar_of data))
      (fun err => reject err).

(** [sent_today] replaced in the notification settings. *)
Definition set_sent_today (value : bool) (user : IUser) : IUser :=
  mkIUser (iu_username user)
          (match iu_notifications user with
           | Some n =>
               Some (mkUserNotifications (matrix n)
                       (mkStreaksDone (enabled (streaks_done n))
                                      (channel (streaks_done n)) value))
           | None => None
           end).

(** Modelled from the spec: [setStreaksDoneSentToday] of [User] has no
    source at hand. It updates the sub-field
    [notifications.streaks_done.sent_today] of the user in the store; it
    fails when the store does, or when the store has no such user. *)
Definition setStreaksDoneSentToday (env : Env) (this : User) (value : bool) : Promise unit :=
  if negb (initialized this) then not_initialized
  else
    fun w =>
      match update_user_error env (usr_id this) with
      | Some err => (Rejected (mkError 500 (message err)), w)
      | None =>
          match w_users w !! usr_id this with
          | None => (Rejected (mkError 404 "User doesn't exists"), w)
          | Some db_user =>
              (Fulfilled tt,
               mkWorld (w_calendars w)
                       (<[usr_id this := set_sent_today value db_user]> (w_users w))
                       (w_console w) (w_matrix w))
          end
      end.

(** ** The Matrix service *)

(** [new MatrixNotifications()] and [await matrix.connect()], when the
    service is enabled on the instance. *)
Definition matrix_connect (matrix : bool) : Promise unit :=
  if matrix then matrix_event Connected else resolve tt.

(** [if (matrix) matrix.disconnect()] *)
Definition matrix_disconnect (matrix : bool) : Promise unit :=
  if matrix then matrix_event Disconnected else resolve tt.

(** When the service answers a send. [net uid m = Some k]: the answer
    arrives while the sweep waits at the [k]-th [await] that follows the
    start of the send (the next one is the 0-th), or at the last statement
    when the sweep comes to it before; [None]: it arrives once the sweep has
    reached its last statement. *)
Definition Network : Type := ObjectId -> Message -> option nat.

(** The service answers no send before the last statement of the sweep. *)
Definition quiet : Network := fun _ _ => None.

(** A promise of [notificationsPromises]: the send is in flight, and the
    sweep has gone through [awaits] awaits since it started; or the service
    has answered, and the promise is fulfilled. *)
Inductive SendPromise : Type :=
  | InFlight (uid : ObjectId) (m : Message) (awaits : nat)
  | Answered (uid : ObjectId) (m : Message).

(** The service answers a send: its promise settles, with a rejection when
    the send failed. *)
Definition send_settles (env : Env) (uid : positive) (m : Message) : Promise unit :=
  fun w =>
    match send_error env uid m with
    | Some err =>
        (Rejected err,
         mkWorld (w_calendars w) (w_users w) (w_console w)
                 (w_matrix w ++ [SendSettled uid m false]))
    | None =>
        (Fulfilled tt,
         mkWorld (w_calendars w) (w_users w) (w_console w)
                 (w_matrix w ++ [SendSettled uid m true]))
    end.

(** A promise that settles while no handler is attached to it: its
    rejection is an unhandled rejection, and the process ends with
    status 1 (the report that Node prints then is not a line written by
    the program, and is not part of the console of the [World]). *)
Definition unhandled {A : Type} (p : Promise A) : Promise A :=
  fun w =>
    match p w with
    | (Rejected _, w') => (Exited 1, w')
    | r => r
    end.

(** The answer of the service arrives at this [await] of the sweep. *)
Definition arrives (net : Network) (uid : positive) (m : Message) (awaits : nat) : bool :=
  match net uid m with
  | Some k => (k =? awaits)%nat
  | None => false
  end.

(** What happens to a promise of the batch while the sweep is at an
    [await]. *)
Definition answer (net : Network) (env : Env) (p : SendPromise) : Promise SendPromise :=
  match p with
  | InFlight uid m awaits =>
      if arrives net uid m awaits then
        run unhandled (send_settles env uid m) ;;
        resolve (Answered uid m)
      else resolve (InFlight uid m (S awaits))
  | Answered uid m => resolve (Answered uid m)
  end.

Fixpoint answers (net : Network) (env : Env) (ps : list SendPromise)
    : Promise (list SendPromise) :=
  match ps with
  | [] => resolve []
  | p :: ps' =>
      await p' <~ answer net env p ;;
      await ps'' <~ answers net env ps' ;;
      resolve (p' :: ps'')
  end.

(** [await p] in the loop of a sweep: the request of [p] is made and the
    function waits; the answers to the sends in flight that arrive meanwhile
    are dealt with before the function resumes, however [p] settles. *)
Definition awaited {A : Type} (net : Network) (env : Env)
    (notificationsPromises : list SendPromise) (p : Promise A)
    : Promise (A * list SendPromise) :=
  fun w =>
    match p w with
    | (Exited status, w') => (Exited status, w')
    | (o, w') =>
        match answers net env notificationsPromises w' with
        | (Fulfilled promises, w'') =>
            (match o with
             | Fulfilled a => Fulfilled (a, promises)
             | Rejected err => Rejected err
             | Exited status => Exited status
             end, w'')
        | (Rejected err, w'') => (Rejected err, w'')
        | (Exited status, w'') => (Exited status, w'')
        end
    end.

(** [notificationsPromises.push(matrix.send...(...))]: the send starts now,
    and its promise joins the batch, without a handler. *)
Definition push_send (uid : positive) (m : Message)
    (notificationsPromises : list SendPromise) : Promise (list SendPromise) :=
  run matrix_event (SendStarted uid m) ;;
  resolve (notificationsPromises ++ [InFlight uid m 0]).

(** A promise of the batch once [Promise.allSettled] has attached its
    handlers: a send in flight settles when the service answers, a send
    that was answered is settled already. *)
Definition settles (env : Env) (p : SendPromise) : Promise unit :=
  match p with
  | InFlight uid m _ => send_settles env uid m
  | Answered _ _ => resolve tt
  end.

(** [for (...) { body }] over a list, with the variables the body updates. *)
Fixpoint for_loop {A S : Type} (l : list A) (body : A -> S -> Promise S) (s : S)
    : Promise S :=
  match l with
  | [] => resolve s
  | x :: l' => await s' <~ body x s ;; for_loop l' body s'
  end.

(** The last statement of [sendReminders] and [sendCongratulation] (and of
    [sendNotifications] in [daemons.ts]):
    [await Promise.allSettled(notificationsPromises).then(async () => {
       if (matrix) matrix.disconnect() })]. *)
Definition settle_batch (matrix_on : bool) (notificationsPromises : list (Promise unit))
    : Promise unit :=
  run allSettled notificationsPromises ;;
  matrix_disconnect matrix_on.

(** ** The decision engine *)

(** [days.get(today) && days.get(today) != 'fail'] *)
Definition passing (o : option DayState) : bool :=
  match o with
  | Some Fail => false
  | Some _ => true
  | None => false
  end.

(** [calendar.notifications?.reminders] *)
Definition wants_reminders (calendar : Calendar) : bool :=
  match ic_notifications (cal_doc calendar) with
  | Some n => reminders n
  | None => false
  end.

(** The inner loop of [sendReminders]: the summary and [has_fails]. *)
Definition summarize (clk : Clock) (calendars : list Calendar)
    : list SummaryEntry * bool :=
  foldl (fun acc calendar =>
           if negb (wants_reminders calendar) then acc
           else if passing (ic_days (cal_doc calendar) !! today clk)
           then (acc.1 ++ [mkSummaryEntry (ic_name (cal_doc calendar)) false
                                          (countStreaks clk calendar)], acc.2)
           else (acc.1 ++ [mkSummaryEntry (ic_name (cal_doc calendar)) true
                                          (countStreaks clk calendar)], true))
        ([], false) calendars.

(** The body of the loop over the users. *)
Definition remind_user_in (net : Network) (clk : Clock) (env : Env) (matrix_on : bool)
    (user : User) (notificationsPromises : list SendPromise)
    : Promise (list SendPromise) :=
  match usr_notifications user with
  | None => resolve notificationsPromises
  | Some n =>
      await r <~ awaited net env notificationsPromises (User_getCalendars env user) ;;
      let calendars := r.1 in
      let sum := (summarize clk calendars).1 in
      let has_fails := (summarize clk calendars).2 in
      if has_fails then
        await promises <~
          (if matrix_on && truthy_string (room_id (matrix n)) then
             if hour_between clk (nullish (start_date (matrix n)) "00:00")
                                 (nullish (end_date (matrix n)) "24:00")
             then push_send (usr_id user)
                            (Reminder (nullish (room_id (matrix n)) "") sum) r.2
             else resolve r.2
           else resolve r.2) ;;
        if sent_today (streaks_done n) then
          await r' <~ awaited net env promises (setStreaksDoneSentToday env user false) ;;
          resolve r'.2
        else resolve promises
      else if enabled (streaks_done n)
              && negb (String.eqb (channel (streaks_done n)) "")
              && negb (sent_today (streaks_done n)) then
        await promises <~
          (if matrix_on && String.eqb (channel (streaks_done n)) "matrix"
              && truthy_string (room_id (matrix n))
           then push_send (usr_id user)
                          (StreaksDoneMessage (nullish (room_id (matrix n)) "")) r.2
           else resolve r.2) ;;
        await r' <~ awaited net env promises (setStreaksDoneSentToday env user true) ;;
        resolve r'.2
      else resolve r.2
  end.

(** [sendReminders()], the service answering as [net] says. *)
Definition sendReminders_in (net : Network) (clk : Clock) (env : Env) : Promise unit :=
  let matrix_on := MATRIX_ENABLED env in
  run matrix_connect matrix_on ;;
  await users <~ getUsers env ;;
  await notificationsPromises <~
    for_loop users (remind_user_in net clk env matrix_on) [] ;;
  settle_batch matrix_on (map (settles env) notificationsPromises).

(** [sendReminders()] when the service answers no send before the last
    statement: every promise of the batch is still pending when
    [Promise.allSettled] attaches its handlers. The lemma
    [sendReminders_in_run] gives the same outcome, store and sends for
    every network in which no send answered earlier is rejected. *)
Definition sendReminders (clk : Clock) (env : Env) : Promise unit :=
  sendReminders_in quiet clk env.

(** [days.get(today) && days.get(today) != 'success'] *)
Definition recorded_not_success (o : option DayState) : bool :=
  match o with
  | Some Success => false
  | Some _ => true
  | None => false
  end.

(** [user.notifications?.matrix.room_id] and the two bounds of the window. *)
Definition user_room (user : User) : option string :=
  match usr_notifications user with
  | Some n => room_id (matrix n)
  | None => None
  end.

Definition user_start (user : User) : option string :=
  match usr_notifications user with
  | Some n => start_date (matrix n)
  | None => None
  end.

Definition user_end (user : User) : option string :=
  match usr_notifications user with
  | Some n => end_date (matrix n)
  | None => None
  end.

Definition sendCongratulation (clk : Clock) (env : Env) (user : User)
    (calendar : Calendar) : Promise unit :=
  let matrix_on := MATRIX_ENABLED env in
  run matrix_connect matrix_on ;;
  let notificationsPromises : list SendPromise := [] in
  if recorded_not_success (ic_days (cal_doc calendar) !! today clk) then
    resolve tt
  else
    await promises <~
      (if matrix_on && truthy_string (user_room user) then
         if hour_between clk (nullish (user_start user) "00:00")
                             (nullish (user_end user) "24:00")
         then push_send (usr_id user)
                        (Congratulation (nullish (user_room user) "") calendar)
                        notificationsPromises
         else resolve notificationsPromises
       else resolve notificationsPromises) ;;
    settle_batch matrix_on (map (settles env) promises).

(** ** What the sweeps compute

    The functions of this part are not in the sources: they state, as pure
    functions of the documents, what the sweeps above do to the world. The
    lemmas below prove that they do. *)

(** The store answers the requests of a sweep of [sendReminders]: the list
    of the users, the calendars of a user, the update of a user. *)
Definition store_ok (env : Env) : Prop :=
  find_users_error env = None
  ∧ (∀ id, find_user_calendars_error env id = None)
  ∧ (∀ id, update_user_error env id = None).

(** The calendar document after a run of the reconciler. *)
Definition reconcile (clk : Clock) (env : Env) (id : positive) (doc : ICalendar)
    : ICalendar :=
  match find_calendars_error env with
  | Some _ => doc
  | None =>
      if negb (agenda_expected (ic_agenda doc) (getDay (today clk)))
         && not_success (ic_days doc !! today clk)
      then match update_calendar_error env id with
           | Some _ => doc
           | None => set_day (today clk) Breakday doc
           end
      else doc
  end.

(** The calendars [user.getCalendars()] answers with. *)
Definition calendars_of (calendars : gmap positive ICalendar) (uid : positive)
    : list Calendar :=
  map calendar_of
      (filter (fun db_calendar : positive * ICalendar => ic_user_id db_calendar.2 = uid)
              (map_to_list calendars)).

(** The sends that [sendReminders] starts for a user. *)
Definition user_messages (clk : Clock) (matrix_on : bool) (n : UserNotifications)
    (calendars : list Calendar) : list Message :=
  if (summarize clk calendars).2 then
    if matrix_on && truthy_string (room_id (matrix n))
       && hour_between clk (nullish (start_date (matrix n)) "00:00")
                           (nullish (end_date (matrix n)) "24:00")
    then [Reminder (nullish (room_id (matrix n)) "") (summarize clk calendars).1]
    else []
  else if enabled (streaks_done n)
          && negb (String.eqb (channel (streaks_done n)) "")
          && negb (sent_today (streaks_done n)) then
    if matrix_on && String.eqb (channel (streaks_done n)) "matrix"
       && truthy_string (room_id (matrix n))
    then [StreaksDoneMessage (nullish (room_id (matrix n)) "")]
    else []
  else [].

(** The value [sendReminders] writes to [sent_today], if it writes one. *)
Definition user_sent_today (clk : Clock) (n : UserNotifications)
    (calendars : list Calendar) : option bool :=
  if (summarize clk calendars).2 then
    if sent_today (streaks_done n) then Some false else None
  else if enabled (streaks_done n)
          && negb (String.eqb (channel (streaks_done n)) "")
          && negb (sent_today (streaks_done n)) then Some true
  else None.

(** The user document after a sweep of [sendReminders]. *)
Definition user_after (clk : Clock) (calendars : gmap positive ICalendar)
    (uid : positive) (doc : IUser) : IUser :=
  match iu_notifications doc with
  | None => doc
  | Some n =>
      match user_sent_today clk n (calendars_of calendars uid) with
      | Some value => set_sent_today value doc
      | None => doc
      end
  end.

(** The sends started for a user document. *)
Definition user_sends (clk : Clock) (matrix_on : bool)
    (calendars : gmap positive ICalendar) (db_user : positive * IUser)
    : list (positive * Message) :=
  match iu_notifications db_user.2 with
  | None => []
  | Some n =>
      map (pair db_user.1)
          (user_messages clk matrix_on n (calendars_of calendars db_user.1))
  end.

(** The sends of a sweep of [sendReminders], in the order of the users. *)
Definition sweep_sends (clk : Clock) (env : Env) (w : World)
    : list (positive * Message) :=
  flat_map (user_sends clk (MATRIX_ENABLED env) (w_calendars w))
           (map_to_list (w_users w)).

(** The promise of a send that is still in flight at the last statement. *)
Definition send_promise (env : Env) (s : positive * Message) : Promise unit :=
  send_settles env s.1 s.2.

Definition started (s : positive * Message) : MatrixEvent :=
  SendStarted s.1 s.2.

Definition settled (env : Env) (s : positive * Message) : MatrixEvent :=
  SendSettled s.1 s.2
              (match send_error env s.1 s.2 with Some _ => false | None => true end).

Definition settled_outcome (env : Env) (s : positive * Message) : Outcome unit :=
  match send_error env s.1 s.2 with
  | Some err => Rejected err
  | None => Fulfilled tt
  end.

(** The events a run adds to the channel. *)
Definition new_events (w w' : World) : list MatrixEvent :=
  drop (length (w_matrix w)) (w_matrix w').

(** The event starts an all-done congratulation for the user. *)
Definition is_streaks_done_for (uid : positive) (e : MatrixEvent) : bool :=
  match e with
  | SendStarted u (StreaksDoneMessage _) => Pos.eqb u uid
  | _ => false
  end.

(** The event starts a reminder for the user. *)
Definition is_reminder_for (uid : positive) (e : MatrixEvent) : bool :=
  match e with
  | SendStarted u (Reminder _ _) => Pos.eqb u uid
  | _ => false
  end.

(** The event starts a send, of any kind. *)
Definition is_send (e : MatrixEvent) : bool :=
  match e with
  | SendStarted _ _ => true
  | _ => false
  end.

Definition count_events (f : MatrixEvent -> bool) (evs : list MatrixEvent) : nat :=
  length (List.filter f evs).

(** The test [f] accepts only sends started for the user. *)
Definition for_user (uid : positive) (f : MatrixEvent -> bool) : Prop :=
  ∀ e, f e = true → ∃ m, e = SendStarted uid m.


(** Every calendar of the user that asks for reminders has a status today,
    and not [fail]. *)
Definition all_passing (clk : Clock) (w : World) (uid : positive) : Prop :=
  ∀ id doc,
    w_calendars w !! id = Some doc →
    ic_user_id doc = uid →
    wants_reminders (mkCalendar id doc) = true →
    ∃ state, ic_days doc !! today clk = Some state ∧ state ≠ Fail.

(** The send that [sendCongratulation] starts, if it starts one. *)
Definition congratulation_sends (clk : Clock) (matrix_on : bool) (user : User)
    (calendar : Calendar) : list (positive * Message) :=
  if recorded_not_success (ic_days (cal_doc calendar) !! today clk) then []
  else if matrix_on && truthy_string (user_room user)
          && hour_between clk (nullish (user_start user) "00:00")
                              (nullish (user_end user) "24:00")
  then [(usr_id user, Congratulation (nullish (user_room user) "") calendar)]
  else [].

(** The second run of the reconciler does not succeed where the first one
    failed: the store has not recovered in between. It holds when the first
    run met no fault, and when both runs met the same ones. *)
Definition no_recovery (env1 env2 : Env) : Prop :=
  (find_calendars_error env1 ≠ None → find_calendars_error env2 ≠ None)
  ∧ ∀ id, update_calendar_error env1 id ≠ None →
          find_calendars_error env2 ≠ None ∨ update_calendar_error env2 id ≠ None.

(** ** Scenarios

    Concrete worlds, on which the statements below are evaluated. The day 3
    is Sunday 1970-01-04. *)

(** An environment without faults. *)
Definition healthy (matrix_on : bool) : Env :=
  mkEnv matrix_on None (fun _ => None) None (fun _ => None) (fun _ => None)
        (fun _ => None) None (fun _ _ => None).

(** The store does not list the calendars. *)
Definition listing_down : Env :=
  mkEnv true (Some (mkError 500 "connection lost")) (fun _ => None) None
        (fun _ => None) (fun _ => None) (fun _ => None) None (fun _ _ => None).

(** The store refuses every update of a calendar. *)
Definition updates_down : Env :=
  mkEnv true None (fun _ => Some (mkError 500 "connection lost")) None
        (fun _ => None) (fun _ => None) (fun _ => None) None (fun _ _ => None).

(** The second send of a batch fails. *)
Definition second_send_fails : Env :=
  mkEnv true None (fun _ => None) None (fun _ => None) (fun _ => None)
        (fun _ => None) None
        (fun uid _ => if Pos.eqb uid 2 then Some (mkError 500 "M_UNKNOWN") else None).

Definition sunday_noon : Clock := mkClock 3 (12 * 60).
Definition sunday_night : Clock := mkClock 3 (23 * 60).

Definition both_flags : option CalendarNotifications :=
  Some (mkCalendarNotifications true true).

(** No task on Sunday, nothing recorded. *)
Definition rest_on_sunday : ICalendar :=
  mkICalendar "run" 1 [0; 1; 1; 1; 1; 1; 1]%Z ∅ both_flags.

(** A task every day, failed today after two days of success. *)
Definition failed_today : ICalendar :=
  mkICalendar "read" 1 [1; 1; 1; 1; 1; 1; 1]%Z
              (<[3%Z := Fail]> (<[2%Z := Success]> (<[1%Z := Success]> ∅))) both_flags.

(** A task every day, done today. *)
Definition done_today : ICalendar :=
  mkICalendar "write" 1 [1; 1; 1; 1; 1; 1; 1]%Z
              (<[3%Z := Success]> (<[2%Z := Success]> ∅)) both_flags.

(** The notification settings of a user with a room and a window over the
    night. *)
Definition settings (channel_ : string) (sent : bool) : option UserNotifications :=
  Some (mkUserNotifications
          (mkMatrixSettings (Some "!room:matrix.org") (Some "22:00") (Some "06:00"))
          (mkStreaksDone true channel_ sent)).


Definition world_of (calendars : gmap positive ICalendar) (notifications : option UserNotifications)
    : World :=
  mkWorld calendars (<[1%positive := mkIUser "ada" notifications]> ∅) [] [].

(** All the tasks of the user are done. *)
Definition all_done_world (notifications : option UserNotifications) : World :=
  world_of (<[1%positive := done_today]> ∅) notifications.

(** A task of the user is failed. *)
Definition failing_world (notifications : option UserNotifications) : World :=
  world_of (<[1%positive := done_today]> (<[2%positive := failed_today]> ∅)) notifications.

(** The world of the reconciler. *)
Definition sunday_world : World :=
  world_of (<[1%positive := rest_on_sunday]> (<[2%positive := done_today]> ∅))
           (settings "matrix" false).

(** ** More of the [User] class *)

(** [user.getCalendarById(id)]. [fault] is the answer of the store to
    [MCalendar.findById] when it fails; an [id] that is not a well-formed id
    is such a failure (the cast of the id fails). *)
Definition getCalendarById (fault : option Error) (this : User) (id : positive)
    : Promise Calendar :=
  if negb (initialized this) then not_initialized
  else
    fun w =>
      match fault with
      | Some err => (Rejected (mkError 500 (message err)), w)
      | None =>
          match w_calendars w !! id with
          | None => (Rejected (mkError 404 "Calendar doesn't exists"), w)
          | Some db_calendar =>
              if negb (Pos.eqb (ic_user_id db_calendar) (usr_id this))
              then (Rejected (mkError 403 "You don't own this calendar"), w)
              else (Fulfilled (calendar_of (id, db_calendar)), w)
          end
      end.

(** ** More on what the sweeps compute *)

(** The event starts a send, of any kind, for the user. *)
Definition is_send_for (uid : positive) (e : MatrixEvent) : bool :=
  match e with
  | SendStarted u _ => Pos.eqb u uid
  | _ => false
  end.

(** The users of [users'] are those of [users], up to [sent_today]. *)
Definition only_sent_today (users users' : gmap positive IUser) : Prop :=
  ∀ k, users' !! k = users !! k
       ∨ ∃ doc value, users !! k = Some doc
                      ∧ users' !! k = Some (set_sent_today value doc).

(** The line of the summary for a calendar. *)
Definition summary_entry (clk : Clock) (calendar : Calendar) : SummaryEntry :=
  mkSummaryEntry (ic_name (cal_doc calendar))
                 (negb (passing (ic_days (cal_doc calendar) !! today clk)))
                 (countStreaks clk calendar).

(** The reconciler has to write [breakday] to the calendar. *)
Definition needs_breakday (clk : Clock) (doc : ICalendar) : bool :=
  negb (agenda_expected (ic_agenda doc) (getDay (today clk)))
  && not_success (ic_days doc !! today clk).

(** The lines the reconciler prints for the updates the store refuses. *)
Definition refused_updates (clk : Clock) (env : Env)
    (db_calendars : list (positive * ICalendar)) : list string :=
  flat_map (fun db_calendar : positive * ICalendar =>
              if needs_breakday clk db_calendar.2 then
                match update_calendar_error env db_calendar.1 with
                | Some err => ["Daemons: " +:+ message err]
                | None => []
                end
              else [])
           db_calendars.

(** The send a promise of the batch stands for. *)
Definition flight (p : SendPromise) : positive * Message :=
  match p with
  | InFlight uid m _ => (uid, m)
  | Answered uid m => (uid, m)
  end.

(** The event is the settlement of a send. *)
Definition is_settlement (e : MatrixEvent) : bool :=
  match e with
  | SendSettled _ _ _ => true
  | _ => false
  end.

(** The events of a list, the settlements of the sends left out. *)
Definition without_settlements (evs : list MatrixEvent) : list MatrixEvent :=
  List.filter (fun e => negb (is_settlement e)) evs.

(** No send that the service answers before the last statement of the sweep
    is rejected. *)
Definition no_early_rejection (net : Network) (env : Env) : Prop :=
  ∀ uid m awaits, net uid m = Some awaits → send_error env uid m = None.

(** A send that is rejected is answered before the last statement. *)
Definition early_rejection (net : Network) (env : Env) : Prop :=
  ∃ uid m awaits, net uid m = Some awaits ∧ send_error env uid m ≠ None.

(** What a step of a sweep of [sendReminders] may do to the world before
    the last statement: [sent_today] of a user, and events on the channel
    other than the disconnection. *)
Definition frame (w w' : World) : Prop :=
  w_calendars w' = w_calendars w
  ∧ w_console w' = w_console w
  ∧ only_sent_today (w_users w) (w_users w')
  ∧ ∃ evs, w_matrix w' = w_matrix w ++ evs ∧ Disconnected ∉ evs.

(** The process ends on an unhandled rejection only. *)
Definition exits_on_rejection {A : Type} (net : Network) (env : Env)
    (o : Outcome A) : Prop :=
  match o with
  | Exited status => status = 1%Z ∧ early_rejection net env
  | _ => True
  end.

(** A step of a sweep that stays in the frame. *)
Definition in_frame {A : Type} (net : Network) (env : Env) (p : Promise A) : Prop :=
  ∀ w, frame w (p w).2 ∧ exits_on_rejection net env (p w).1.

(** The calendar passes, or it has no task today. *)
Definition passing_or_rest (clk : Clock) (doc : ICalendar) : Prop :=
  agenda_expected (ic_agenda doc) (getDay (today clk)) = false
  ∨ ∃ state, ic_days doc !! today clk = Some state ∧ state ≠ Fail.

(** ** The login form ([components/login/login.js]) *)

Module Login.

(** [data()] of the component. *)
Record Data : Type := mkData {
  type : string;
  loading : bool;
  errors : list string;
  username : string;
  password : string;
  passwordRepeat : string
}.

(** What the form does to the browser. *)
Inductive Effect : Type :=
  | PushState (url : string)
  | Fetch (url : string) (fields : list string)
  | Redirect (url : string).

Definition set_type (t : string) (d : Data) : Data :=
  mkData t (loading d) (errors d) (username d) (password d) (passwordRepeat d).

Definition set_loading (b : bool) (d : Data) : Data :=
  mkData (type d) b (errors d) (username d) (password d) (passwordRepeat d).

Definition set_errors (l : list string) (d : Data) : Data :=
  mkData (type d) (loading d) l (username d) (password d) (passwordRepeat d).

(** [this.errors.push(e)] *)
Definition push_error (e : string) (d : Data) : Data :=
  set_errors (errors d ++ [e]) d.

Definition is_empty (s : string) : bool := (String.length s =? 0)%nat.

(** [changeType(type)] *)
Definition changeType (t : string) (d : Data) : Data * list Effect :=
  if loading d then (d, [])
  else
    (set_type t d,
     if String.eqb t "login" then [PushState "/login"]
     else if String.eqb t "register" then [PushState "/register"]
     else []).

(** [isSubmitAuthorized()]: the answer and the component after it. *)
Definition isSubmitAuthorized (d : Data) : bool * Data :=
  let d1 := if is_empty (username d) then push_error "Username can't be empty" d else d in
  let d2 := if is_empty (password d1) then push_error "Password can't be empty" d1 else d1 in
  if String.eqb (type d2) "login" then
    (negb (is_empty (username d2)) && negb (is_empty (password d2)), d2)
  else if String.eqb (type d2) "register" then
    let d3 :=
      if is_empty (passwordRepeat d2)
      then push_error "Password repeat can't be empty" d2
      else if negb (String.eqb (password d2) (passwordRepeat d2))
      then push_error "Passwords don't match" d2
      else d2 in
    (negb (is_empty (username d3)) && negb (is_empty (password d3))
     && negb (is_empty (passwordRepeat d3))
     && String.eqb (password d3) (passwordRepeat d3), d3)
  else (false, d2).

(** [res.ok]: the status is in the range 200-299. *)
Definition res_ok (status : nat) : bool := ((200 <=? status) && (status <=? 299))%nat.

(** [login()]. [response] is the status of the answer to the request; [None]
    when [fetch] rejects, and the function stops there. *)
Definition login (response : option nat) (d : Data) : Data * list Effect :=
  let d0 := set_errors [] d in
  let a := isSubmitAuthorized d0 in
  if negb a.1 then (a.2, [])
  else
    let d1 := set_loading true a.2 in
    let request := Fetch "/login" [username d1; password d1] in
    match response with
    | None => (d1, [request])
    | Some status =>
        if res_ok status then (set_loading false d1, [request; Redirect "/dashboard"])
        else if (status =? 404)%nat || (status =? 401)%nat
        then (set_loading false (push_error "Wrong username or password" d1), [request])
        else (set_loading false (push_error "An error occured" d1), [request])
    end.

(** The body of an answer, as [res.json()] reads it: [null], or another
    value, with its [message] if it has one of its own. *)
Inductive Body : Type :=
  | Null
  | Value (message_ : option string).

(** [register()]. [response] is the status of the answer and its body;
    [None] when [fetch] or [res.json()] rejects. On a body [null],
    [data.hasOwnProperty] throws: the function stops there. *)
Definition register (response : option (nat * Body)) (d : Data)
    : Data * list Effect :=
  let d0 := set_errors [] d in
  let a := isSubmitAuthorized d0 in
  if negb a.1 then (a.2, [])
  else
    let d1 := set_loading true a.2 in
    let request := Fetch "/register" [username d1; password d1; passwordRepeat d1] in
    match response with
    | None => (d1, [request])
    | Some (status, data) =>
        if res_ok status then (set_loading false d1, [request; Redirect "/dashboard"])
        else if (status =? 409)%nat
        then (set_loading false (push_error "Username already taken" d1), [request])
        else match data with
             | Null => (d1, [request])
             | Value (Some message_) =>
                 (set_loading false (push_error message_ d1), [request])
             | Value None =>
                 (set_loading false (push_error "An error occured" d1), [request])
             end
    end.

End Login.

(** ** More scenarios *)

(** The store does not list the users. *)
Definition users_down : Env :=
  mkEnv true None (fun _ => None) (Some (mkError 500 "connection lost"))
        (fun _ => None) (fun _ => None) (fun _ => None) None (fun _ _ => None).

(** The service answers every send at the first [await] that follows it. *)
Definition at_once : Network := fun _ _ => Some 0.

(** A task of a second user, with nothing recorded. *)
Definition not_done : ICalendar :=
  mkICalendar "swim" 2 [1; 1; 1; 1; 1; 1; 1]%Z ∅ both_flags.

(** Two users, each with a task that is not done today; [getUsers] lists
    the user 2 first. *)
Definition two_users_world : World :=
  mkWorld (<[1%positive := failed_today]> (<[2%positive := not_done]> ∅))
          (<[1%positive := mkIUser "ada" (settings "matrix" false)]>
             (<[2%positive := mkIUser "bob" (settings "matrix" false)]> ∅))
          [] [].

(** The user of the scenarios, as [getUsers] gives it. *)
Definition ada (notifications : option UserNotifications) : User :=
  user_of (1%positive, mkIUser "ada" notifications).

(** * Proofs *)

(** ** The Breakday Reconciler *)

Section Reconciler.

Variable clk : Clock.
Variable env : Env.

Lemma setDayState_run (id : positive) (date : Z) (state : DayState) (w : World) :
  setDayState env id date state w =
    match update_calendar_error env id with
    | Some err => (Rejected err, w)
    | None =>
        match w_calendars w !! id with
        | None => (Rejected (mkError 404 "Calendar doesn't exists"), w)
        | Some doc =>
            (Fulfilled tt,
             mkWorld (<[id := set_day date state doc]> (w_calendars w))
                     (w_users w) (w_console w) (w_matrix w))
        end
    end.
Proof.
  unfold setDayState, then_, request.
  destruct (update_calendar_error env id); reflexivity.
Qed.

(** The promise of a calendar resolves, whatever the store answers. *)
Lemma breakday_promise_fulfilled (db_calendar : positive * ICalendar) (w : World) :
  ∃ w1, breakday_promise clk env db_calendar w = (Fulfilled tt, w1)
        ∧ w_users w1 = w_users w ∧ w_matrix w1 = w_matrix w.
Proof.
  unfold breakday_promise.
  destruct (negb _); [|by eexists].
  destruct (not_success _); [|by eexists].
  unfold finally_, catch_. rewrite setDayState_run.
  destruct (update_calendar_error env db_calendar.1); simpl; [by eexists|].
  destruct (w_calendars w !! db_calendar.1); simpl; by eexists.
Qed.

(** On a calendar of the store, it leaves the reconciled document. *)
Lemma breakday_promise_run (id : positive) (doc : ICalendar) (w : World) :
  w_calendars w !! id = Some doc →
  find_calendars_error env = None →
  ∃ w1, breakday_promise clk env (id, doc) w = (Fulfilled tt, w1)
        ∧ w_calendars w1 = <[id := reconcile clk env id doc]> (w_calendars w).
Proof.
  intros Hdoc Hfind. unfold breakday_promise, reconcile. rewrite Hfind. simpl.
  destruct (negb _); simpl.
  - destruct (not_success _); simpl.
    + unfold finally_, catch_. rewrite setDayState_run.
      destruct (update_calendar_error env id); simpl.
      * eexists; split; [reflexivity|]. simpl. by rewrite insert_id.
      * rewrite Hdoc. simpl. by eexists.
    + eexists; split; [reflexivity|]. by rewrite insert_id.
  - eexists; split; [reflexivity|]. by rewrite insert_id.
Qed.

(** The batch of the reconciler over calendars of the store, each listed
    once. *)
Lemma breakday_batch_run (l : list (positive * ICalendar)) :
  ∀ w,
    NoDup l.*1 →
    (∀ id doc, (id, doc) ∈ l → w_calendars w !! id = Some doc) →
    find_calendars_error env = None →
    ∃ os wf,
      allSettled (map (breakday_promise clk env) l) w = (Fulfilled os, wf)
      ∧ (∀ k, w_calendars wf !! k =
                if decide (k ∈ l.*1)
                then reconcile clk env k <$> w_calendars w !! k
                else w_calendars w !! k)
      ∧ w_users wf = w_users w ∧ w_matrix wf = w_matrix w.
Proof.
  induction l as [|[id doc] l IH]; intros w Hnd Hin Hfind.
  - exists [], w. split; [reflexivity|]. split; [|done].
    intros k. case_decide as Hk; [|done]. by apply elem_of_nil in Hk.
  - simpl in Hnd. apply NoDup_cons in Hnd as [Hid Hnd].
    destruct (breakday_promise_run id doc w) as (w1 & Hrun & Hcal);
      [apply Hin; left | done |].
    destruct (breakday_promise_fulfilled (id, doc) w) as (w1' & Hrun' & Hu & Hm).
    rewrite Hrun in Hrun'. injection Hrun' as <-.
    destruct (IH w1 Hnd) as (os & wf & Hall & Hlook & Hu' & Hm'); [|done|].
    { intros id' doc' Hel. rewrite Hcal.
      rewrite lookup_insert_ne; [apply Hin; by right|].
      intros ->. apply Hid. apply list_elem_of_fmap. by exists (id', doc'). }
    exists (Fulfilled tt :: os), wf. simpl. rewrite Hrun, Hall.
    split; [reflexivity|]. split; [|by rewrite Hu', Hm'].
    intros k. rewrite Hlook, Hcal.
    destruct (decide (k = id)) as [->|Hne].
    + rewrite lookup_insert_eq, (Hin id doc) by left.
      rewrite decide_False by done.
      case_decide as Hk'; [done|]. exfalso. apply Hk'. by left.
    + rewrite lookup_insert_ne by done.
      destruct (decide (k ∈ l.*1)) as [Hk|Hk]; case_decide as Hk'; try done.
      * exfalso. apply Hk'. by right.
      * apply elem_of_cons in Hk' as [?|?]; done.
Qed.

(** The run never rejects. *)
Lemma setBreakdays_fulfilled (w : World) :
  (setBreakdays clk env w).1 = Fulfilled tt.
Proof.
  unfold setBreakdays, catch_, then_, getCalendars, request.
  destruct (find_calendars_error env) as [err|] eqn:Hfind; simpl; [done|].
  destruct (breakday_batch_run (map_to_list (w_calendars w)) w) as (os & wf & -> & _);
    [apply NoDup_fst_map_to_list | by intros ?? ?%elem_of_map_to_list | done |].
  done.
Qed.

(** What the run leaves in the store. *)
Lemma setBreakdays_calendars (w : World) (k : positive) :
  w_calendars (setBreakdays clk env w).2 !! k
  = reconcile clk env k <$> w_calendars w !! k.
Proof.
  unfold setBreakdays, catch_, then_, getCalendars, request.
  destruct (find_calendars_error env) as [err|] eqn:Hfind; simpl.
  - unfold reconcile. rewrite Hfind. by destruct (w_calendars w !! k).
  - destruct (breakday_batch_run (map_to_list (w_calendars w)) w)
      as (os & wf & -> & Hlook & _);
      [apply NoDup_fst_map_to_list | by intros ?? ?%elem_of_map_to_list | done |].
    simpl. rewrite Hlook. case_decide as Hk; [done|].
    destruct (w_calendars w !! k) as [doc|] eqn:Hdoc; [|done].
    exfalso. apply Hk. apply list_elem_of_fmap. exists (k, doc).
    split; [done|]. by apply elem_of_map_to_list.
Qed.

Lemma setBreakdays_listing_fails (w : World) (err : Error) :
  find_calendars_error env = Some err →
  setBreakdays clk env w =
    (Fulfilled tt,
     mkWorld (w_calendars w) (w_users w)
             (w_console w ++ ["Daemons: " +:+ message err]) (w_matrix w)).
Proof.
  intros Hfind. unfold setBreakdays, catch_, then_, getCalendars, request.
  rewrite Hfind. reflexivity.
Qed.

End Reconciler.

(** ** The batch of sends *)

Section Batch.

Variable env : Env.

(** Every send of the batch settles, with its own outcome, and the batch
    is fulfilled. *)
Lemma allSettled_sends (batch : list (positive * Message)) :
  ∀ w,
    allSettled (map (send_promise env) batch) w =
      (Fulfilled (map (settled_outcome env) batch),
       mkWorld (w_calendars w) (w_users w) (w_console w)
               (w_matrix w ++ map (settled env) batch)).
Proof.
  induction batch as [|s batch IH]; intros w; simpl.
  - unfold resolve. rewrite app_nil_r. by destruct w.
  - unfold send_promise at 1, send_settles.
    unfold settled_outcome at 1. unfold settled at 1.
    destruct (send_error env s.1 s.2); rewrite IH; simpl;
      rewrite <- app_assoc; reflexivity.
Qed.

Lemma settle_batch_run (matrix_on : bool) (batch : list (positive * Message))
    (w : World) :
  settle_batch matrix_on (map (send_promise env) batch) w =
    (Fulfilled tt,
     mkWorld (w_calendars w) (w_users w) (w_console w)
             (w_matrix w ++ map (settled env) batch
                ++ (if matrix_on then [Disconnected] else []))).
Proof.
  unfold settle_batch, then_. rewrite allSettled_sends.
  destruct matrix_on; unfold matrix_disconnect, matrix_event, resolve; simpl.
  - by rewrite <- app_assoc.
  - by rewrite app_nil_r.
Qed.

End Batch.

(** ** The decision engine, when the store answers *)

Lemma world_eta (w : World) :
  mkWorld (w_calendars w) (w_users w) (w_console w) (w_matrix w) = w.
Proof. by destruct w. Qed.

Lemma summarize_has_fails (clk : Clock) (calendars : list Calendar) :
  (summarize clk calendars).2 =
    existsb (fun calendar =>
               wants_reminders calendar
               && negb (passing (ic_days (cal_doc calendar) !! today clk)))
            calendars.
Proof.
  unfold summarize.
  enough (∀ acc : list SummaryEntry * bool,
            (foldl (fun acc calendar =>
                      if negb (wants_reminders calendar) then acc
                      else if passing (ic_days (cal_doc calendar) !! today clk)
                      then (acc.1 ++ [mkSummaryEntry (ic_name (cal_doc calendar)) false
                                        (countStreaks clk calendar)], acc.2)
                      else (acc.1 ++ [mkSummaryEntry (ic_name (cal_doc calendar)) true
                                        (countStreaks clk calendar)], true))
                   acc calendars).2
            = acc.2 || existsb (fun calendar =>
                           wants_reminders calendar
                           && negb (passing (ic_days (cal_doc calendar) !! today clk)))
                        calendars) as H by apply (H ([], false)).
  induction calendars as [|c l IH]; intros acc; simpl.
  - by rewrite orb_false_r.
  - rewrite IH.
    destruct (wants_reminders c); simpl; [|done].
    destruct (passing _); simpl; [done|].
    by rewrite orb_true_r.
Qed.

Lemma elem_of_calendars_of (calendars : gmap positive ICalendar) (uid : positive)
    (c : Calendar) :
  c ∈ calendars_of calendars uid
  ↔ calendars !! cal_id c = Some (cal_doc c) ∧ ic_user_id (cal_doc c) = uid.
Proof.
  unfold calendars_of. rewrite list_elem_of_fmap. split.
  - intros ([id doc] & -> & Hin). apply list_elem_of_filter in Hin as [Hu Hin].
    by apply elem_of_map_to_list in Hin.
  - intros [Hdoc Hu]. exists (cal_id c, cal_doc c). split; [by destruct c|].
    apply list_elem_of_filter. split; [done|]. by apply elem_of_map_to_list.
Qed.


Lemma summarize_passing (clk : Clock) (w : World) (uid : positive) :
  all_passing clk w uid →
  (summarize clk (calendars_of (w_calendars w) uid)).2 = false.
Proof.
  intros Hall. rewrite summarize_has_fails.
  apply not_true_is_false. intros Hex.
  apply existsb_exists in Hex as ([id doc] & Hin & Hc).
  apply list_elem_of_In, elem_of_calendars_of in Hin as [Hdoc Hu].
  apply andb_true_iff in Hc as [Hr Hp]. simpl in *.
  destruct (Hall id doc Hdoc Hu Hr) as (state & Hst & Hne).
  rewrite Hst in Hp. by destruct state.
Qed.

Lemma without_settlements_app (evs1 evs2 : list MatrixEvent) :
  without_settlements (evs1 ++ evs2)
  = without_settlements evs1 ++ without_settlements evs2.
Proof. unfold without_settlements. apply List.filter_app. Qed.

(** [Promise.allSettled] on the batch: the sends still in flight settle, and
    the batch is fulfilled whatever they do. *)
Lemma join_run (env : Env) (ps : list SendPromise) :
  ∀ w, ∃ os evs,
    allSettled (map (settles env) ps) w
    = (Fulfilled os,
       mkWorld (w_calendars w) (w_users w) (w_console w) (w_matrix w ++ evs))
    ∧ without_settlements evs = [].
Proof.
  induction ps as [|p ps IH]; intros w.
  - exists [], []. simpl. unfold resolve. by rewrite app_nil_r, world_eta.
  - cbn [map allSettled].
    destruct p as [uid m awaits|uid m]; simpl.
    + unfold send_settles.
      destruct (send_error env uid m);
        match goal with
        | |- context [allSettled ?l ?w0] =>
            destruct (IH w0) as (os & evs & -> & Hev)
        end; simpl; rewrite <- app_assoc;
        eexists _, _; (split; [reflexivity|]);
        by rewrite without_settlements_app, Hev.
    + unfold resolve. destruct (IH w) as (os & evs & -> & Hev).
      by eexists _, _.
Qed.

Lemma settle_batch_join (env : Env) (matrix_on : bool) (ps : list SendPromise)
    (w : World) :
  ∃ evs,
    settle_batch matrix_on (map (settles env) ps) w
    = (Fulfilled tt,
       mkWorld (w_calendars w) (w_users w) (w_console w)
               (w_matrix w ++ evs ++ (if matrix_on then [Disconnected] else [])))
    ∧ without_settlements evs = [].
Proof.
  unfold settle_batch, then_.
  destruct (join_run env ps w) as (os & evs & -> & Hev).
  exists evs. split; [|done].
  destruct matrix_on; unfold matrix_disconnect, matrix_event, resolve; simpl.
  - by rewrite <- app_assoc.
  - by rewrite app_nil_r.
Qed.

Lemma then_resolve {A B : Type} (a : A) (f : A -> Promise B) (w : World) :
  then_ (resolve a) f w = f a w.
Proof. reflexivity. Qed.

Lemma then_push_send {B : Type} (uid : positive) (m : Message)
    (ps : list SendPromise) (f : list SendPromise -> Promise B) (w : World) :
  then_ (push_send uid m ps) f w
  = f (ps ++ [InFlight uid m 0])
      (mkWorld (w_calendars w) (w_users w) (w_console w)
               (w_matrix w ++ [SendStarted uid m])).
Proof. reflexivity. Qed.

Section Engine.

Variable net : Network.
Variable clk : Clock.
Variable env : Env.
Hypothesis Hok : store_ok env.
Hypothesis Hnet : no_early_rejection net env.

Lemma User_getCalendars_run (uid : positive) (doc : IUser) (w : World) :
  User_getCalendars env (user_of (uid, doc)) w
  = (Fulfilled (calendars_of (w_calendars w) uid), w).
Proof.
  unfold User_getCalendars. simpl.
  destruct Hok as (_ & Hc & _). by rewrite Hc.
Qed.

Lemma setStreaksDoneSentToday_run (uid : positive) (doc db_user : IUser)
    (value : bool) (w : World) :
  w_users w !! uid = Some db_user →
  setStreaksDoneSentToday env (user_of (uid, doc)) value w
  = (Fulfilled tt,
     mkWorld (w_calendars w) (<[uid := set_sent_today value db_user]> (w_users w))
             (w_console w) (w_matrix w)).
Proof.
  intros Hu. unfold setStreaksDoneSentToday. simpl.
  destruct Hok as (_ & _ & Hup). by rewrite Hup, Hu.
Qed.

(** The answers that arrive at an [await]: the sends they settle are
    fulfilled, and the sweep goes on. *)
Lemma answers_run (ps : list SendPromise) :
  ∀ w, ∃ ps' evs,
    answers net env ps w
    = (Fulfilled ps',
       mkWorld (w_calendars w) (w_users w) (w_console w) (w_matrix w ++ evs))
    ∧ map flight ps' = map flight ps
    ∧ without_settlements evs = [].
Proof.
  induction ps as [|p ps IH]; intros w.
  - exists [], []. simpl. unfold resolve. by rewrite app_nil_r, world_eta.
  - cbn [answers]. unfold then_ at 1.
    destruct p as [uid m awaits|uid m]; simpl.
    + unfold arrives. destruct (net uid m) as [k|] eqn:Hk.
      * destruct (k =? awaits)%nat.
        -- unfold then_ at 1, unhandled, send_settles, resolve.
           rewrite (Hnet _ _ _ Hk). unfold then_.
           match goal with
           | |- context [answers net env ps ?w0] =>
               destruct (IH w0) as (ps' & evs & -> & Hfl & Hev)
           end.
           simpl. rewrite <- app_assoc. eexists _, _. split; [reflexivity|].
           simpl. split; [by rewrite Hfl|]. exact Hev.
        -- unfold resolve, then_.
           destruct (IH w) as (ps' & evs & -> & Hfl & Hev).
           eexists _, _. split; [reflexivity|]. simpl. by rewrite Hfl.
      * unfold resolve, then_.
        destruct (IH w) as (ps' & evs & -> & Hfl & Hev).
        eexists _, _. split; [reflexivity|]. simpl. by rewrite Hfl.
    + unfold resolve, then_.
      destruct (IH w) as (ps' & evs & -> & Hfl & Hev).
      eexists _, _. split; [reflexivity|]. simpl. by rewrite Hfl.
Qed.


Lemma awaited_run {A : Type} (ps : list SendPromise) (p : Promise A) (a : A)
    (w w1 : World) :
  p w = (Fulfilled a, w1) →
  ∃ ps' evs,
    awaited net env ps p w
    = (Fulfilled (a, ps'),
       mkWorld (w_calendars w1) (w_users w1) (w_console w1) (w_matrix w1 ++ evs))
    ∧ map flight ps' = map flight ps
    ∧ without_settlements evs = [].
Proof.
  intros Hp. unfold awaited. rewrite Hp.
  destruct (answers_run ps w1) as (ps' & evs & -> & Hfl & Hev).
  by exists ps', evs.
Qed.

(** One turn of the loop over the users. *)
Lemma remind_user_in_run (matrix_on : bool) (uid : positive) (doc : IUser)
    (ps : list SendPromise) (w : World) :
  w_users w !! uid = Some doc →
  ∃ ps' w',
    remind_user_in net clk env matrix_on (user_of (uid, doc)) ps w
    = (Fulfilled ps', w')
    ∧ map flight ps'
      = map flight ps ++ user_sends clk matrix_on (w_calendars w) (uid, doc)
    ∧ w_calendars w' = w_calendars w
    ∧ w_users w' = <[uid := user_after clk (w_calendars w) uid doc]> (w_users w)
    ∧ w_console w' = w_console w
    ∧ ∃ evs,
        w_matrix w' = w_matrix w ++ evs
        ∧ without_settlements evs
          = map started (user_sends clk matrix_on (w_calendars w) (uid, doc)).
Proof.
  intros Hu.
  unfold remind_user_in, user_sends, user_after, user_messages, user_sent_today.
  simpl. destruct (iu_notifications doc) as [n|] eqn:Hn.
  2: { exists ps, w. unfold resolve. rewrite app_nil_r, insert_id by done.
       repeat split; try done. exists []. by rewrite app_nil_r. }
  unfold then_ at 1.
  destruct (awaited_run ps _ _ w w (User_getCalendars_run uid doc w))
    as (ps1 & evs1 & -> & Hfl1 & Hev1).
  cbn [fst snd].
  assert (∀ (l : list SendPromise) (value : bool) (w0 : World),
            w_users w0 !! uid = Some doc →
            ∃ ps' evs,
              then_ (awaited net env l
                       (setStreaksDoneSentToday env (user_of (uid, doc)) value))
                    (fun r' => resolve r'.2) w0
              = (Fulfilled ps',
                 mkWorld (w_calendars w0)
                         (<[uid := set_sent_today value doc]> (w_users w0))
                         (w_console w0) (w_matrix w0 ++ evs))
              ∧ map flight ps' = map flight l
              ∧ without_settlements evs = []) as Hset.
  { intros l value w0 Hu0. unfold then_ at 1.
    edestruct (awaited_run l (setStreaksDoneSentToday env (user_of (uid, doc)) value)
                 tt w0) as (ps2 & evs2 & -> & Hfl2 & Hev2);
      [by apply setStreaksDoneSentToday_run|].
    by exists ps2, evs2. }
  destruct (summarize clk (calendars_of (w_calendars w) uid)).2.
  - destruct (matrix_on && truthy_string (room_id (matrix n)));
      [destruct (hour_between clk (nullish (start_date (matrix n)) "00:00")
                   (nullish (end_date (matrix n)) "24:00"))|];
      destruct (sent_today (streaks_done n)); simpl;
      rewrite ?then_push_send, ?then_resolve; simpl;
      try match goal with
          | |- context [then_ (awaited net env ?l _) _ ?w0] =>
              destruct (Hset l false w0 Hu) as (ps2 & evs2 & -> & Hfl2 & Hev2)
          end;
      eexists _, _; (split; [reflexivity|]); simpl;
      rewrite ?Hfl2, ?map_app, ?Hfl1, ?app_nil_r, ?insert_id by exact Hu;
      repeat split; try done;
      (eexists; split; [rewrite <- ?app_assoc; reflexivity|]);
      rewrite ?without_settlements_app, ?Hev1, ?Hev2; simpl;
      by rewrite ?app_nil_r.
  - destruct (enabled (streaks_done n) && negb (channel (streaks_done n) =? "")%string
              && negb (sent_today (streaks_done n))).
    2: { rewrite app_nil_r, insert_id by done.
         eexists _, _. split; [reflexivity|]. simpl.
         repeat split; try done. by exists evs1. }
    destruct (matrix_on && (channel (streaks_done n) =? "matrix")%string
              && truthy_string (room_id (matrix n))); simpl;
      rewrite ?then_push_send, ?then_resolve; simpl;
      match goal with
      | |- context [then_ (awaited net env ?l _) _ ?w0] =>
          destruct (Hset l true w0 Hu) as (ps2 & evs2 & -> & Hfl2 & Hev2)
      end;
      eexists _, _; (split; [reflexivity|]); simpl;
      rewrite ?Hfl2, ?map_app, ?Hfl1, ?app_nil_r;
      repeat split; try done;
      (eexists; split; [rewrite <- ?app_assoc; reflexivity|]);
      rewrite ?without_settlements_app, ?Hev1, ?Hev2; simpl;
      by rewrite ?app_nil_r.
Qed.


(** The loop over users of the store, each listed once. *)
Lemma remind_loop_in_run (matrix_on : bool) (l : list (positive * IUser)) :
  ∀ (ps : list SendPromise) (w : World),
    NoDup l.*1 →
    (∀ uid doc, (uid, doc) ∈ l → w_users w !! uid = Some doc) →
    ∃ ps' wf,
      for_loop (map user_of l) (remind_user_in net clk env matrix_on) ps w
      = (Fulfilled ps', wf)
      ∧ map flight ps'
        = map flight ps ++ flat_map (user_sends clk matrix_on (w_calendars w)) l
      ∧ w_calendars wf = w_calendars w
      ∧ w_console wf = w_console w
      ∧ (∃ evs,
           w_matrix wf = w_matrix w ++ evs
           ∧ without_settlements evs
             = map started (flat_map (user_sends clk matrix_on (w_calendars w)) l))
      ∧ ∀ k, w_users wf !! k =
               if decide (k ∈ l.*1)
               then user_after clk (w_calendars w) k <$> w_users w !! k
               else w_users w !! k.
Proof.
  induction l as [|[uid doc] l IH]; intros ps w Hnd Hin.
  - exists ps, w. simpl. unfold resolve. rewrite app_nil_r.
    repeat split; try done. exists []. by rewrite app_nil_r.
  - apply NoDup_cons in Hnd as [Hid Hnd].
    destruct (remind_user_in_run matrix_on uid doc ps w)
      as (ps1 & w1 & Hrun & Hfl1 & Hc1 & Hu1 & Hl1 & evs1 & Hm1 & Hev1);
      [apply Hin; left|].
    destruct (IH ps1 w1 Hnd)
      as (ps2 & wf & Hloop & Hfl2 & Hc2 & Hl2 & (evs2 & Hm2 & Hev2) & Husers).
    { intros uid' doc' Hel. rewrite Hu1.
      rewrite lookup_insert_ne; [apply Hin; by right|].
      intros ->. apply Hid. apply list_elem_of_fmap. by exists (uid', doc'). }
    exists ps2, wf. cbn [map for_loop flat_map]. unfold then_ at 1.
    rewrite Hrun, Hloop. rewrite Hc1 in Hfl2, Hev2.
    split; [done|]. split; [by rewrite Hfl2, Hfl1, <- app_assoc|].
    split; [by rewrite Hc2|]. split; [by rewrite Hl2|]. split.
    + exists (evs1 ++ evs2). rewrite Hm2, Hm1, <- app_assoc. split; [done|].
      by rewrite without_settlements_app, Hev1, Hev2, map_app.
    + intros k. rewrite Husers, Hu1, Hc1.
      destruct (decide (k = uid)) as [->|Hne].
      * rewrite lookup_insert_eq, (Hin uid doc) by left.
        rewrite decide_False by done.
        case_decide as Hk'; [done|]. exfalso. apply Hk'. by left.
      * rewrite lookup_insert_ne by done.
        destruct (decide (k ∈ l.*1)) as [Hk|Hk]; case_decide as Hk'; try done.
        -- exfalso. apply Hk'. by right.
        -- apply elem_of_cons in Hk' as [?|?]; done.
Qed.

(** A whole sweep: it is fulfilled; the users are left as [user_after]
    says; on the channel, the settlements left out, the sends started are
    those of [sweep_sends], between the connection and the disconnection. *)
Lemma sendReminders_in_run (w : World) :
  ∃ wf,
    sendReminders_in net clk env w = (Fulfilled tt, wf)
    ∧ w_calendars wf = w_calendars w
    ∧ (∀ k, w_users wf !! k = user_after clk (w_calendars w) k <$> w_users w !! k)
    ∧ without_settlements (new_events w wf)
      = (if MATRIX_ENABLED env then [Connected] else [])
          ++ map started (sweep_sends clk env w)
          ++ (if MATRIX_ENABLED env then [Disconnected] else [])
    ∧ w_console wf = w_console w.
Proof.
  unfold sendReminders_in, new_events.
  set (matrix_on := MATRIX_ENABLED env).
  set (w0 := (matrix_connect matrix_on w).2).
  assert (matrix_connect matrix_on w = (Fulfilled tt, w0)
          ∧ w_calendars w0 = w_calendars w ∧ w_users w0 = w_users w
          ∧ w_console w0 = w_console w
          ∧ w_matrix w0 = w_matrix w ++ (if matrix_on then [Connected] else []))
    as (Hconn & Hc0 & Hu0 & Hl0 & Hm0).
  { subst w0. destruct matrix_on; simpl; repeat split; by rewrite ?app_nil_r. }
  destruct (remind_loop_in_run matrix_on (map_to_list (w_users w0)) [] w0)
    as (ps & w1 & Hloop & _ & Hc1 & Hl1 & (evs1 & Hm1 & Hev1) & Hu1);
    [apply NoDup_fst_map_to_list | by intros ?? ?%elem_of_map_to_list |].
  unfold then_ at 1. rewrite Hconn.
  unfold then_ at 1, getUsers.
  destruct Hok as (-> & _).
  unfold then_ at 1. rewrite Hloop.
  destruct (settle_batch_join env matrix_on ps w1) as (evs2 & -> & Hev2).
  eexists. split; [reflexivity|]. simpl.
  rewrite Hc1, Hc0, Hl1, Hl0. split; [done|]. split; [|split; [|done]].
  - intros k. rewrite Hu1, Hc0, Hu0. case_decide as Hk; [done|].
    destruct (w_users w !! k) as [doc|] eqn:Hdoc; [|done].
    exfalso. apply Hk. apply list_elem_of_fmap. exists (k, doc).
    split; [done|]. by apply elem_of_map_to_list.
  - rewrite Hm1, Hm0, <- !app_assoc, drop_app_length.
    rewrite !without_settlements_app, Hev1, Hev2, Hc0, Hu0.
    unfold sweep_sends. fold matrix_on. by destruct matrix_on.
Qed.

End Engine.

(** The users after a sweep, for every network in which no send answered
    before the last statement is rejected. *)
Lemma sendReminders_in_users (net : Network) (clk : Clock) (env : Env) (w : World)
    (k : positive) :
  store_ok env →
  no_early_rejection net env →
  w_users (sendReminders_in net clk env w).2 !! k
  = user_after clk (w_calendars w) k <$> w_users w !! k.
Proof.
  intros Hok Hnet.
  destruct (sendReminders_in_run net clk env Hok Hnet w) as (wf & -> & _ & Hu & _).
  apply Hu.
Qed.


(** ** Counting the sends of a user *)

Lemma count_events_app (f : MatrixEvent -> bool) (evs1 evs2 : list MatrixEvent) :
  count_events f (evs1 ++ evs2) = count_events f evs1 + count_events f evs2.
Proof. unfold count_events. by rewrite List.filter_app, length_app. Qed.


Lemma for_user_reminder (uid : positive) : for_user uid (is_reminder_for uid).
Proof.
  intros [|u [| |]|? ? ?|]; simpl; try done.
  intros ->%Pos.eqb_eq. by eexists.
Qed.

Section Counting.

Variable uid : positive.
Variable f : MatrixEvent -> bool.
Hypothesis Hf : for_user uid f.

Lemma count_settled (env : Env) (sends : list (positive * Message)) :
  count_events f (map (settled env) sends) = 0.
Proof.
  induction sends as [|s sends IH]; [done|].
  simpl. unfold count_events in *. simpl.
  destruct (f (settled env s)) eqn:Hfs; [|done].
  by apply Hf in Hfs as [m Hm].
Qed.

Lemma count_started_others (sends : list (positive * Message)) :
  (∀ s, s ∈ sends → s.1 ≠ uid) →
  count_events f (map started sends) = 0.
Proof.
  induction sends as [|s sends IH]; intros Hne; [done|].
  simpl. unfold count_events in *. simpl.
  destruct (f (started s)) eqn:Hfs.
  - apply Hf in Hfs as [m Hm]. injection Hm as Hs _.
    exfalso. apply (Hne s); [by left|done].
  - apply IH. intros s' Hs'. apply Hne. by right.
Qed.

Lemma user_sends_fst (clk : Clock) (matrix_on : bool)
    (calendars : gmap positive ICalendar) (db_user : positive * IUser)
    (s : positive * Message) :
  s ∈ user_sends clk matrix_on calendars db_user → s.1 = db_user.1.
Proof.
  unfold user_sends. destruct (iu_notifications db_user.2); [|by intros ?%elem_of_nil].
  intros (m & -> & _)%list_elem_of_fmap. done.
Qed.

(** Among the sends of the users, those of [uid] are the sends of its
    document. *)
Lemma count_flat_sends (clk : Clock) (matrix_on : bool)
    (calendars : gmap positive ICalendar) (l : list (positive * IUser)) :
  NoDup l.*1 →
  ∀ doc, (uid, doc) ∈ l →
    count_events f (map started (flat_map (user_sends clk matrix_on calendars) l))
    = count_events f (map started (user_sends clk matrix_on calendars (uid, doc))).
Proof.
  induction l as [|[k d] l IH]; intros Hnd doc Hin; [by apply elem_of_nil in Hin|].
  apply NoDup_cons in Hnd as [Hk Hnd].
  cbn [flat_map]. rewrite map_app, count_events_app.
  apply elem_of_cons in Hin as [Heq|Hin].
  - injection Heq as <- <-.
    rewrite (count_started_others (flat_map _ l)); [lia|].
    intros s (db_user & Hdb & Hs)%list_elem_of_In%in_flat_map.
    apply list_elem_of_In, user_sends_fst in Hs. rewrite Hs.
    intros Heq. apply Hk. apply list_elem_of_fmap.
    exists db_user. split; [done|]. by apply list_elem_of_In.
  - rewrite (IH Hnd doc Hin).
    rewrite (count_started_others (user_sends _ _ _ (k, d))); [lia|].
    intros s Hs%user_sends_fst. rewrite Hs. simpl.
    intros ->. apply Hk. apply list_elem_of_fmap. by exists (uid, doc).
Qed.

(** The settlements do not count. *)
Lemma count_without_settlements (evs : list MatrixEvent) :
  count_events f (without_settlements evs) = count_events f evs.
Proof.
  unfold count_events, without_settlements.
  induction evs as [|e evs IH]; [done|]. simpl.
  destruct (is_settlement e) eqn:He; simpl.
  - destruct (f e) eqn:Hfe; [|done].
    apply Hf in Hfe as [m ->]. done.
  - destruct (f e); simpl; by rewrite IH.
Qed.

(** The sends a sweep starts for a user of the store, for every network
    in which no send answered before the last statement is rejected. *)
Lemma sendReminders_in_count (net : Network) (clk : Clock) (env : Env) (w : World)
    (doc : IUser) :
  store_ok env →
  no_early_rejection net env →
  w_users w !! uid = Some doc →
  count_events f (new_events w (sendReminders_in net clk env w).2)
  = count_events f
      (map started (user_sends clk (MATRIX_ENABLED env) (w_calendars w) (uid, doc))).
Proof.
  intros Hok Hnet Hdoc.
  destruct (sendReminders_in_run net clk env Hok Hnet w) as (wf & -> & _ & _ & Hev & _).
  cbn [snd]. rewrite <- count_without_settlements, Hev.
  rewrite !count_events_app.
  unfold sweep_sends.
  rewrite (count_flat_sends _ _ _ _ (NoDup_fst_map_to_list _) doc)
    by by apply elem_of_map_to_list.
  assert (∀ b (e : MatrixEvent), count_events f (if b : bool then [e] else []) = 0
                                 ∨ ∃ m, e = SendStarted uid m) as Hone.
  { intros [] e; [|by left]. unfold count_events. simpl.
    destruct (f e) eqn:He; [right; by apply Hf|by left]. }
  destruct (Hone (MATRIX_ENABLED env) Connected) as [->|[? ?]]; [|done].
  destruct (Hone (MATRIX_ENABLED env) Disconnected) as [->|[? ?]]; [|done].
  lia.
Qed.

(** The sends a sweep starts for a user of the store. *)
Lemma sendReminders_count (clk : Clock) (env : Env) (w : World) (doc : IUser) :
  store_ok env →
  w_users w !! uid = Some doc →
  count_events f (new_events w (sendReminders clk env w).2)
  = count_events f
      (map started (user_sends clk (MATRIX_ENABLED env) (w_calendars w) (uid, doc))).
Proof.
  intros Hok Hdoc. apply sendReminders_in_count; [done| |done].
  by intros u m awaits.
Qed.

End Counting.

(** ** Properties of the Breakday Reconciler *)

Lemma reconcile_keeps_success (clk : Clock) (env : Env) (id : positive)
    (doc : ICalendar) (d : Z) :
  ic_days doc !! d = Some Success →
  ic_days (reconcile clk env id doc) !! d = Some Success.
Proof.
  intros Hd. unfold reconcile.
  destruct (find_calendars_error env); [done|].
  destruct (negb _); simpl; [|done].
  destruct (not_success (ic_days doc !! today clk)) eqn:Hns; [|done].
  destruct (update_calendar_error env id); [done|]. simpl.
  destruct (decide (d = today clk)) as [->|Hne].
  - rewrite Hd in Hns. done.
  - by rewrite lookup_insert_ne.
Qed.

Lemma reconcile_twice (clk : Clock) (env1 env2 : Env) (id : positive)
    (doc : ICalendar) :
  no_recovery env1 env2 →
  reconcile clk env2 id (reconcile clk env1 id doc) = reconcile clk env1 id doc.
Proof.
  intros [Hlist Hupd]. unfold reconcile at 2 3.
  destruct (find_calendars_error env1) as [e1|] eqn:H1.
  { unfold reconcile. destruct (find_calendars_error env2); [done|].
    by destruct Hlist. }
  destruct (negb (agenda_expected (ic_agenda doc) (getDay (today clk)))
            && not_success (ic_days doc !! today clk)) eqn:Hcond.
  - destruct (update_calendar_error env1 id) as [e|] eqn:Hu1.
    + unfold reconcile. destruct (find_calendars_error env2) eqn:H2; [done|].
      rewrite Hcond.
      destruct (update_calendar_error env2 id) eqn:Hu2; [done|].
      destruct (Hupd id); [by rewrite Hu1|done|done].
    + unfold reconcile. destruct (find_calendars_error env2); [done|].
      simpl. rewrite lookup_insert_eq. simpl.
      apply andb_true_iff in Hcond as [-> _]. simpl.
      destruct (update_calendar_error env2 id); [done|].
      unfold set_day. simpl. by rewrite insert_insert_eq.
  - unfold reconcile. destruct (find_calendars_error env2); [done|].
    by rewrite Hcond.
Qed.

Lemma reconcile_same_day (clk1 clk2 : Clock) (env : Env) (id : positive)
    (doc : ICalendar) :
  today clk1 = today clk2 →
  reconcile clk1 env id doc = reconcile clk2 env id doc.
Proof. intros Hday. unfold reconcile. by rewrite Hday. Qed.

(** C1. For a calendar of the store and the day of the run: when the agenda
    does not expect a task on today's weekday and today's status is absent
    or is not [success], the reconciler sets today's status to [breakday]
    (the store listing the calendars and accepting the update); when the
    agenda expects a task today, or today's status is [success], the
    document of the calendar, hence the entry of today, is left as it was. *)
Theorem setBreakdays_marks_today (clk : Clock) (env : Env) (w : World)
    (id : positive) (doc : ICalendar) :
  w_calendars w !! id = Some doc →
  (agenda_expected (ic_agenda doc) (getDay (today clk)) = false →
   ic_days doc !! today clk ≠ Some Success →
   find_calendars_error env = None →
   update_calendar_error env id = None →
   w_calendars (setBreakdays clk env w).2 !! id
     = Some (set_day (today clk) Breakday doc)
   ∧ ic_days (set_day (today clk) Breakday doc) !! today clk = Some Breakday)
  ∧ (agenda_expected (ic_agenda doc) (getDay (today clk)) = true
     ∨ ic_days doc !! today clk = Some Success →
     w_calendars (setBreakdays clk env w).2 !! id = Some doc).
Proof.
  intros Hdoc. rewrite setBreakdays_calendars, Hdoc. simpl. split.
  - intros Hexp Hst Hfind Hupd. unfold reconcile.
    rewrite Hfind, Hexp, Hupd. simpl.
    assert (not_success (ic_days doc !! today clk) = true) as ->.
    { by destruct (ic_days doc !! today clk) as [[]|]. }
    split; [done|]. apply lookup_insert_eq.
  - intros Hcase. unfold reconcile.
    destruct (find_calendars_error env); [done|].
    destruct Hcase as [-> | ->]; simpl; [done|].
    by rewrite andb_false_r.
Qed.

(** C2. Two runs of the reconciler on the same day leave the store of the
    calendars as one run does, the second run not succeeding where the first
    one failed; and a run never changes a day whose status is [success]. *)
Theorem setBreakdays_idempotent (clk1 clk2 : Clock) (env1 env2 : Env) (w : World) :
  (today clk2 = today clk1 →
   no_recovery env1 env2 →
   w_calendars (setBreakdays clk2 env2 (setBreakdays clk1 env1 w).2).2
   = w_calendars (setBreakdays clk1 env1 w).2)
  ∧ (∀ id doc d,
       w_calendars w !! id = Some doc →
       ic_days doc !! d = Some Success →
       ∃ doc', w_calendars (setBreakdays clk1 env1 w).2 !! id = Some doc'
               ∧ ic_days doc' !! d = Some Success).
Proof.
  split.
  - intros Hday Hrec. apply map_eq. intros k.
    rewrite !setBreakdays_calendars.
    destruct (w_calendars w !! k); simpl; [|done].
    rewrite (reconcile_same_day clk2 clk1) by done.
    by rewrite reconcile_twice.
  - intros id doc d Hdoc Hd. rewrite setBreakdays_calendars, Hdoc. simpl.
    eexists. split; [done|]. by apply reconcile_keeps_success.
Qed.

(** C10. The promise of the reconciler never rejects: it is fulfilled
    whatever the store answers to the listing and to the updates, and when
    the listing fails the error is written to the console and nothing else
    changes. *)
Theorem setBreakdays_never_rejects (clk : Clock) (env : Env) (w : World) :
  (setBreakdays clk env w).1 = Fulfilled tt
  ∧ ∀ err, find_calendars_error env = Some err →
           (setBreakdays clk env w).2
           = mkWorld (w_calendars w) (w_users w)
                     (w_console w ++ ["Daemons: " +:+ message err]) (w_matrix w).
Proof.
  split; [apply setBreakdays_fulfilled|].
  intros err Hfind. by rewrite (setBreakdays_listing_fails clk env w err Hfind).
Qed.

(** On a Sunday, the calendar without a task that day gets [breakday]; the
    calendar done that day is left as it was. *)
Lemma setBreakdays_marks_today_witness :
  (w_calendars (setBreakdays sunday_noon (healthy true) sunday_world).2 !! 1%positive
   = Some (set_day 3 Breakday rest_on_sunday)
   ∧ ic_days (set_day 3 Breakday rest_on_sunday) !! 3%Z = Some Breakday)
  ∧ w_calendars (setBreakdays sunday_noon (healthy true) sunday_world).2 !! 2%positive
    = Some done_today.
Proof.
  assert (w_calendars sunday_world !! 1%positive = Some rest_on_sunday) as Hrest
    by (vm_compute; reflexivity).
  assert (w_calendars sunday_world !! 2%positive = Some done_today) as Hdone
    by (vm_compute; reflexivity).
  split.
  - destruct (setBreakdays_marks_today sunday_noon (healthy true) sunday_world 1
                rest_on_sunday Hrest) as [Hset _].
    apply Hset.
    + vm_compute; reflexivity.
    + vm_compute; discriminate.
    + reflexivity.
    + reflexivity.
  - destruct (setBreakdays_marks_today sunday_noon (healthy true) sunday_world 2
                done_today Hdone) as [_ Hkeep].
    apply Hkeep. left. vm_compute; reflexivity.
Defined.

(** A second run, after a run without fault, changes nothing; the day done
    stays done. *)
Lemma setBreakdays_idempotent_witness :
  w_calendars (setBreakdays sunday_night updates_down
                 (setBreakdays sunday_noon (healthy true) sunday_world).2).2
  = w_calendars (setBreakdays sunday_noon (healthy true) sunday_world).2
  ∧ ∃ doc', w_calendars (setBreakdays sunday_noon (healthy true) sunday_world).2
              !! 2%positive = Some doc'
            ∧ ic_days doc' !! 3%Z = Some Success.
Proof.
  destruct (setBreakdays_idempotent sunday_noon sunday_night (healthy true) updates_down
              sunday_world) as [Hsame Hkeep].
  split.
  - apply Hsame; [reflexivity|]. split.
    + intros Hfault. exfalso. apply Hfault. reflexivity.
    + intros id Hfault. exfalso. apply Hfault. reflexivity.
  - apply (Hkeep 2%positive done_today 3%Z); vm_compute; reflexivity.
Defined.

(** The listing fails: the run is fulfilled, with one line on the console. *)
Lemma setBreakdays_never_rejects_witness :
  (setBreakdays sunday_noon listing_down sunday_world).1 = Fulfilled tt
  ∧ (setBreakdays sunday_noon listing_down sunday_world).2
    = mkWorld (w_calendars sunday_world) (w_users sunday_world)
              ["Daemons: connection lost"] [].
Proof.
  destruct (setBreakdays_never_rejects sunday_noon listing_down sunday_world)
    as [Hful Hlog].
  split; [exact Hful|].
  apply (Hlog (mkError 500 "connection lost")). reflexivity.
Defined.

(** ** Streak counter *)

Lemma walk_back_no_success (agenda : list Z) (days : gmap Z DayState) :
  (∀ d, days !! d ≠ Some Success) →
  ∀ fuel d streaks, walk_back agenda days fuel d streaks = streaks.
Proof.
  intros Hnone. induction fuel as [|fuel IH]; intros d streaks; simpl; [done|].
  destruct (agenda_expected agenda (getDay d)); [|apply IH].
  destruct (days !! d) as [[]|] eqn:Hd; try done.
  by apply Hnone in Hd.
Qed.

(** C3. A calendar whose day map holds no [success] has a streak of 0. *)
Theorem countStreaks_no_success (clk : Clock) (calendar : Calendar) :
  (∀ d, ic_days (cal_doc calendar) !! d ≠ Some Success) →
  countStreaks clk calendar = 0.
Proof.
  intros Hnone. unfold countStreaks.
  destruct (latest_recorded clk _); [|done].
  destruct (earliest_recorded _); [|done].
  by apply walk_back_no_success.
Qed.

(** A calendar with a failed day and a break day only. *)
Lemma countStreaks_no_success_witness :
  countStreaks sunday_noon
    (mkCalendar 1 (set_day 2 Fail (set_day 3 Breakday rest_on_sunday))) = 0.
Proof.
  apply countStreaks_no_success. intros d. simpl.
  destruct (decide (d = 2%Z)) as [->|H2].
  - rewrite lookup_insert_eq. discriminate.
  - rewrite lookup_insert_ne by done.
    destruct (decide (d = 3%Z)) as [->|H3].
    + rewrite lookup_insert_eq. discriminate.
    + rewrite lookup_insert_ne by done. rewrite lookup_empty. discriminate.
Defined.

(** ** [addCalendar] *)

(** C9. The calendar that [addCalendar] creates expects a task on each of
    the 7 weekdays, has an empty day map, and has both notification flags
    set; it is a new document of the store. *)
Theorem addCalendar_creates (env : Env) (this : User) (name : string)
    (w w' : World) (calendar : Calendar) :
  addCalendar env this name w = (Fulfilled calendar, w') →
  (∀ weekday, weekday < 7 →
     agenda_expected (ic_agenda (cal_doc calendar)) weekday = true)
  ∧ ic_days (cal_doc calendar) = ∅
  ∧ ic_notifications (cal_doc calendar) = Some (mkCalendarNotifications true true)
  ∧ w_calendars w !! cal_id calendar = None
  ∧ w_calendars w' = <[cal_id calendar := cal_doc calendar]> (w_calendars w).
Proof.
  unfold addCalendar. destruct (initialized this); simpl; [|discriminate].
  unfold catch_, then_, getUserById, save_calendar, resolve, reject.
  destruct (find_user_error env (usr_id this)); [discriminate|].
  destruct (w_users w !! usr_id this); [|discriminate].
  destruct (save_calendar_error env); [discriminate|].
  intros [= <- <-]. simpl.
  split; [|split; [done|split; [done|split; [|done]]]].
  - intros weekday Hlt.
    do 7 (destruct weekday as [|weekday]; [reflexivity|]). lia.
  - apply not_elem_of_dom, is_fresh.
Qed.

(** The user of the scenario adds a calendar. *)
Lemma addCalendar_creates_witness :
  ∃ calendar w',
    addCalendar (healthy true) (user_of (1%positive, mkIUser "ada" None)) "swim"
                sunday_world = (Fulfilled calendar, w')
    ∧ ic_agenda (cal_doc calendar) = [1; 1; 1; 1; 1; 1; 1]%Z
    ∧ ic_days (cal_doc calendar) = ∅
    ∧ ic_notifications (cal_doc calendar) = Some (mkCalendarNotifications true true).
Proof.
  eexists _, _. split; [vm_compute; reflexivity|].
  pose proof (addCalendar_creates (healthy true)
                (user_of (1%positive, mkIUser "ada" None)) "swim" sunday_world)
    as Hcreates.
  split; [reflexivity|].
  edestruct Hcreates as (_ & Hdays & Hflags & _); [vm_compute; reflexivity|].
  split; [exact Hdays|exact Hflags].
Defined.

(** ** The dispatcher *)

(** C8 at the failing input. Two users have a task that is not done, inside
    their window; [getUsers] lists the user 2 first. The send of the
    reminder of the user 2 is rejected, and the answer arrives while the
    sweep awaits the calendars of the user 1: no handler is attached yet
    ([Promise.allSettled] is the last statement), the process ends with
    status 1, the reminder of the user 1 is never started and the channel
    is not disconnected. When the same rejection arrives at the last
    statement, the sweep is fulfilled, both reminders are started and
    settled, and the channel is disconnected. *)
Lemma sendReminders_unhandled_rejection :
  let reminder name := Reminder "!room:matrix.org" [mkSummaryEntry name true 0] in
  sendReminders_in at_once sunday_night second_send_fails two_users_world
  = (Exited 1,
     mkWorld (w_calendars two_users_world) (w_users two_users_world) []
             [Connected;
              SendStarted 2 (reminder "swim");
              SendSettled 2 (reminder "swim") false])
  ∧ sendReminders sunday_night second_send_fails two_users_world
    = (Fulfilled tt,
       mkWorld (w_calendars two_users_world) (w_users two_users_world) []
               [Connected;
                SendStarted 2 (reminder "swim");
                SendStarted 1 (reminder "read");
                SendSettled 2 (reminder "swim") false;
                SendSettled 1 (reminder "read") true;
                Disconnected]).
Proof. split; vm_compute; reflexivity. Qed.

(** ** The window *)

(** With the window 22:00-06:00, 23:00 is inside and 12:00 is outside. *)
Example window_over_midnight :
  hour_between sunday_night "22:00" "06:00" = true
  ∧ hour_between sunday_noon "22:00" "06:00" = false.
Proof. split; reflexivity. Qed.

(** The window of a user without bounds, 00:00-24:00, holds every minute
    of the day. *)
Lemma default_window (clk : Clock) :
  minutes clk < 24 * 60 → hour_between clk "00:00" "24:00" = true.
Proof.
  intros Hlt. unfold hour_between. simpl.
  apply Nat.leb_le. lia.
Qed.

(** ** Properties of the decision engine *)





(** A reminder is started inside the window only. *)
Lemma reminder_needs_window (clk : Clock) (env : Env) (w : World)
    (uid : positive) (doc : IUser) (n : UserNotifications) :
  store_ok env →
  w_users w !! uid = Some doc →
  iu_notifications doc = Some n →
  hour_between clk (nullish (start_date (matrix n)) "00:00")
                   (nullish (end_date (matrix n)) "24:00") = false →
  count_events (is_reminder_for uid) (new_events w (sendReminders clk env w).2) = 0.
Proof.
  intros Hok Hdoc Hn Hout.
  rewrite (sendReminders_count uid _ (for_user_reminder uid) clk env w doc Hok Hdoc).
  unfold user_sends, user_messages. simpl. rewrite Hn, Hout, andb_false_r.
  destruct (summarize clk _).2; [done|].
  destruct (_ && _); [|done]. by destruct (_ && _).
Qed.






(** C6 at the failing input. At noon, outside the window 22:00-06:00 of the
    user, a sweep starts the all-done congratulation. *)
Lemma sendReminders_all_done_outside_window :
  hour_between sunday_noon "22:00" "06:00" = false
  ∧ count_events (is_streaks_done_for 1)
      (new_events (all_done_world (settings "matrix" false))
         (sendReminders sunday_noon (healthy true)
            (all_done_world (settings "matrix" false))).2) = 1.
Proof. split; vm_compute; reflexivity. Qed.

(** ** [sendCongratulation] *)

Lemma count_sends_started (sends : list (positive * Message)) :
  count_events is_send (map started sends) = length sends.
Proof.
  unfold count_events. induction sends as [|s sends IH]; simpl; [done|].
  by rewrite IH.
Qed.

Lemma count_sends_settled (env : Env) (sends : list (positive * Message)) :
  count_events is_send (map (settled env) sends) = 0.
Proof.
  unfold count_events. induction sends as [|s sends IH]; simpl; done.
Qed.

(** A call of [sendCongratulation]: it is fulfilled, and the channel sees
    the send of [congratulation_sends], if any. *)
Lemma sendCongratulation_run (clk : Clock) (env : Env) (user : User)
    (calendar : Calendar) (w : World) :
  (sendCongratulation clk env user calendar w).1 = Fulfilled tt
  ∧ new_events w (sendCongratulation clk env user calendar w).2
    = (if MATRIX_ENABLED env then [Connected] else [])
        ++ (if recorded_not_success (ic_days (cal_doc calendar) !! today clk)
            then []
            else map started (congratulation_sends clk (MATRIX_ENABLED env) user calendar)
                   ++ map (settled env)
                          (congratulation_sends clk (MATRIX_ENABLED env) user calendar)
                   ++ (if MATRIX_ENABLED env then [Disconnected] else [])).
Proof.
  unfold sendCongratulation, congratulation_sends, new_events.
  destruct (recorded_not_success _).
  - destruct (MATRIX_ENABLED env); simpl; unfold then_; simpl;
      rewrite ?app_nil_r; by rewrite ?drop_app_length, ?drop_all.
  - destruct (MATRIX_ENABLED env), (truthy_string (user_room user)),
      (hour_between clk _ _); simpl;
      unfold then_, push_send, then_, matrix_event, resolve, settle_batch, then_,
        matrix_disconnect, matrix_event, resolve; simpl;
      unfold send_settles, settled; simpl;
      try destruct (send_error env _ _); simpl;
      rewrite <- ?app_assoc; simpl;
      rewrite ?app_nil_r; by rewrite ?drop_app_length, ?drop_all.
Qed.

Lemma sendCongratulation_count (clk : Clock) (env : Env) (user : User)
    (calendar : Calendar) (w : World) :
  count_events is_send (new_events w (sendCongratulation clk env user calendar w).2)
  = length (congratulation_sends clk (MATRIX_ENABLED env) user calendar).
Proof.
  destruct (sendCongratulation_run clk env user calendar w) as [_ ->].
  unfold congratulation_sends.
  destruct (recorded_not_success _).
  - rewrite app_nil_r. by destruct (MATRIX_ENABLED env).
  - rewrite !count_events_app, count_sends_started, count_sends_settled.
    destruct (MATRIX_ENABLED env); simpl; unfold count_events; simpl; lia.
Qed.

(** The congratulation for a calendar is started inside the window only. *)
Lemma congratulation_needs_window (clk : Clock) (env : Env) (user : User)
    (calendar : Calendar) (w : World) :
  hour_between clk (nullish (user_start user) "00:00")
                   (nullish (user_end user) "24:00") = false →
  count_events is_send (new_events w (sendCongratulation clk env user calendar w).2) = 0.
Proof.
  intros Hout. rewrite sendCongratulation_count. unfold congratulation_sends.
  rewrite Hout, andb_false_r. by destruct (recorded_not_success _).
Qed.

(** C7, as the code has it. [sendCongratulation] sends nothing when the
    status of today is recorded and is not [success]. When it is [success],
    each call sends one congratulation, the Matrix service being enabled, the
    user having a room and the time being in the window: a second call, on
    the world the first one left, sends again. *)
Theorem sendCongratulation_each_call (clk : Clock) (env : Env) (user : User)
    (calendar : Calendar) (w : World) :
  (∀ state, ic_days (cal_doc calendar) !! today clk = Some state →
            state ≠ Success →
            count_events is_send
              (new_events w (sendCongratulation clk env user calendar w).2) = 0)
  ∧ (ic_days (cal_doc calendar) !! today clk = Some Success →
     MATRIX_ENABLED env = true →
     truthy_string (user_room user) = true →
     hour_between clk (nullish (user_start user) "00:00")
                      (nullish (user_end user) "24:00") = true →
     let w1 := (sendCongratulation clk env user calendar w).2 in
     count_events is_send (new_events w w1) = 1
     ∧ count_events is_send
         (new_events w1 (sendCongratulation clk env user calendar w1).2) = 1).
Proof.
  split.
  - intros state Hst Hne. rewrite sendCongratulation_count.
    unfold congratulation_sends. rewrite Hst. by destruct state.
  - intros Hst Hmx Hroom Hin w1. subst w1. rewrite !sendCongratulation_count.
    unfold congratulation_sends. by rewrite Hst, Hmx, Hroom, Hin.
Qed.

(** The day is done: two calls, two congratulations; the day is failed: no
    congratulation. *)
Lemma sendCongratulation_each_call_witness :
  count_events is_send
    (new_events (failing_world (settings "matrix" false))
       (sendCongratulation sunday_night (healthy true)
          (user_of (1%positive, mkIUser "ada" (settings "matrix" false)))
          (mkCalendar 2 failed_today)
          (failing_world (settings "matrix" false))).2) = 0
  ∧ count_events is_send
      (new_events (all_done_world (settings "matrix" false))
         (sendCongratulation sunday_night (healthy true)
            (user_of (1%positive, mkIUser "ada" (settings "matrix" false)))
            (mkCalendar 1 done_today)
            (all_done_world (settings "matrix" false))).2) = 1.
Proof.
  split.
  - destruct (sendCongratulation_each_call sunday_night (healthy true)
                (user_of (1%positive, mkIUser "ada" (settings "matrix" false)))
                (mkCalendar 2 failed_today)
                (failing_world (settings "matrix" false))) as [Hquiet _].
    apply (Hquiet Fail); [vm_compute; reflexivity|discriminate].
  - destruct (sendCongratulation_each_call sunday_night (healthy true)
                (user_of (1%positive, mkIUser "ada" (settings "matrix" false)))
                (mkCalendar 1 done_today)
                (all_done_world (settings "matrix" false))) as [_ Hsends].
    apply Hsends; vm_compute; reflexivity.
Defined.

(** C7 as the specification states it fails: the status of today is already
    [success], and a second call of [sendCongratulation] sends a second
    congratulation. *)
Lemma sendCongratulation_sends_again :
  ic_days done_today !! today sunday_night = Some Success
  ∧ count_events is_send
      (new_events (all_done_world (settings "matrix" false))
         (sendCongratulation sunday_night (healthy true)
            (user_of (1%positive, mkIUser "ada" (settings "matrix" false)))
            (mkCalendar 1 done_today)
            (all_done_world (settings "matrix" false))).2) = 1
  ∧ count_events is_send
      (new_events
         (sendCongratulation sunday_night (healthy true)
            (user_of (1%positive, mkIUser "ada" (settings "matrix" false)))
            (mkCalendar 1 done_today)
            (all_done_world (settings "matrix" false))).2
         (sendCongratulation sunday_night (healthy true)
            (user_of (1%positive, mkIUser "ada" (settings "matrix" false)))
            (mkCalendar 1 done_today)
            (sendCongratulation sunday_night (healthy true)
               (user_of (1%positive, mkIUser "ada" (settings "matrix" false)))
               (mkCalendar 1 done_today)
               (all_done_world (settings "matrix" false))).2).2) = 1.
Proof. repeat split; vm_compute; reflexivity. Qed.

(** ** A batch with a failure *)

(** Three sends, the second of which fails: the three settle, two fulfilled
    and one rejected, the batch is fulfilled and the channel is disconnected
    at the end. *)
Example three_sends_one_failure :
  let batch := [(1%positive, StreaksDoneMessage "!a");
                (2%positive, StreaksDoneMessage "!b");
                (3%positive, StreaksDoneMessage "!c")] in
  let w := all_done_world (settings "matrix" false) in
  allSettled (map (send_promise second_send_fails) batch) w
  = (Fulfilled [Fulfilled tt; Rejected (mkError 500 "M_UNKNOWN"); Fulfilled tt],
     mkWorld (w_calendars w) (w_users w) []
             [SendSettled 1 (StreaksDoneMessage "!a") true;
              SendSettled 2 (StreaksDoneMessage "!b") false;
              SendSettled 3 (StreaksDoneMessage "!c") true])
  ∧ settle_batch true (map (send_promise second_send_fails) batch) w
    = (Fulfilled tt,
       mkWorld (w_calendars w) (w_users w) []
               [SendSettled 1 (StreaksDoneMessage "!a") true;
                SendSettled 2 (StreaksDoneMessage "!b") false;
                SendSettled 3 (StreaksDoneMessage "!c") true;
                Disconnected]).
Proof. split; reflexivity. Qed.

(** * Further properties *)

(** ** A sweep of [sendReminders], whatever the store answers *)

Lemma set_sent_today_twice (value value' : bool) (doc : IUser) :
  set_sent_today value' (set_sent_today value doc) = set_sent_today value' doc.
Proof. unfold set_sent_today. simpl. by destruct (iu_notifications doc). Qed.

Lemma only_sent_today_refl (users : gmap positive IUser) :
  only_sent_today users users.
Proof. intros k. by left. Qed.

Lemma only_sent_today_trans (users1 users2 users3 : gmap positive IUser) :
  only_sent_today users1 users2 →
  only_sent_today users2 users3 →
  only_sent_today users1 users3.
Proof.
  intros H12 H23 k.
  destruct (H23 k) as [->|(doc2 & value2 & Hdoc2 & ->)]; [apply H12|].
  destruct (H12 k) as [Heq|(doc1 & value1 & Hdoc1 & Heq)].
  - right. exists doc2, value2. by rewrite <- Heq.
  - right. exists doc1, value2. split; [done|].
    rewrite Heq in Hdoc2. injection Hdoc2 as <-.
    by rewrite set_sent_today_twice.
Qed.

Lemma only_sent_today_insert (users : gmap positive IUser) (uid : positive)
    (doc : IUser) (value : bool) :
  users !! uid = Some doc →
  only_sent_today users (<[uid := set_sent_today value doc]> users).
Proof.
  intros Hdoc k. destruct (decide (k = uid)) as [->|Hne].
  - right. exists doc, value. by rewrite lookup_insert_eq.
  - left. by rewrite lookup_insert_ne.
Qed.

Lemma frame_refl (w : World) : frame w w.
Proof.
  repeat split; try done; [apply only_sent_today_refl|].
  exists []. rewrite app_nil_r. split; [done|]. by intros ?%elem_of_nil.
Qed.

Lemma frame_trans (w1 w2 w3 : World) : frame w1 w2 → frame w2 w3 → frame w1 w3.
Proof.
  intros (Hc1 & Hl1 & Hu1 & evs1 & Hm1 & Hd1) (Hc2 & Hl2 & Hu2 & evs2 & Hm2 & Hd2).
  split; [by rewrite Hc2|]. split; [by rewrite Hl2|].
  split; [by apply only_sent_today_trans with (w_users w2)|].
  exists (evs1 ++ evs2). rewrite Hm2, Hm1, <- app_assoc. split; [done|].
  by intros [?|?]%elem_of_app.
Qed.

(** An event other than the disconnection. *)
Lemma frame_event (e : MatrixEvent) (w : World) :
  e ≠ Disconnected →
  frame w (mkWorld (w_calendars w) (w_users w) (w_console w) (w_matrix w ++ [e])).
Proof.
  intros He. repeat split; try done; [apply only_sent_today_refl|].
  exists [e]. split; [done|]. intros Hin%list_elem_of_singleton. by subst.
Qed.

Section AnyStore.

Variable net : Network.
Variable clk : Clock.
Variable env : Env.

Lemma in_frame_resolve {A : Type} (a : A) : in_frame net env (resolve a).
Proof. intros w. split; [apply frame_refl|done]. Qed.

Lemma in_frame_then {A B : Type} (p : Promise A) (f : A -> Promise B) :
  in_frame net env p →
  (∀ a, in_frame net env (f a)) →
  in_frame net env (then_ p f).
Proof.
  intros Hp Hf w. unfold then_.
  destruct (Hp w) as [Hfr Hex].
  destruct (p w) as [[a|err|status] w1]; simpl in *; [|done|done].
  destruct (Hf a w1) as [Hfr' Hex']. split; [|done].
  by apply frame_trans with w1.
Qed.

Lemma in_frame_event (e : MatrixEvent) :
  e ≠ Disconnected → in_frame net env (matrix_event e).
Proof. intros He w. split; [by apply frame_event|done]. Qed.

(** An answer ends the process only when it rejects a send before the last
    statement. *)
Lemma in_frame_answer (p : SendPromise) : in_frame net env (answer net env p).
Proof.
  destruct p as [uid m awaits|uid m]; simpl; [|apply in_frame_resolve].
  unfold arrives. destruct (net uid m) as [k|] eqn:Hk; [|apply in_frame_resolve].
  destruct (k =? awaits)%nat; [|apply in_frame_resolve].
  apply in_frame_then; [|intros; apply in_frame_resolve].
  intros w. unfold unhandled, send_settles.
  destruct (send_error env uid m) eqn:Herr; simpl.
  - split; [by apply frame_event|]. split; [done|].
    exists uid, m, k. by rewrite Herr.
  - split; [by apply frame_event|done].
Qed.

Lemma in_frame_answers (ps : list SendPromise) : in_frame net env (answers net env ps).
Proof.
  induction ps as [|p ps IH]; simpl; [apply in_frame_resolve|].
  apply in_frame_then; [apply in_frame_answer|]. intros p'.
  apply in_frame_then; [apply IH|]. intros ps'. apply in_frame_resolve.
Qed.

Lemma in_frame_awaited {A : Type} (ps : list SendPromise) (p : Promise A) :
  in_frame net env p → in_frame net env (awaited net env ps p).
Proof.
  intros Hp w. unfold awaited.
  destruct (Hp w) as [Hfr Hex].
  destruct (p w) as [[a|err|status] w1]; simpl in *; [| |done];
    destruct (in_frame_answers ps w1) as [Hfr' Hex'];
    destruct (answers net env ps w1) as [[ps'|err'|status'] w2]; simpl in *;
    (split; [by apply frame_trans with w1|done]).
Qed.

Lemma in_frame_getCalendars (db_user : positive * IUser) :
  in_frame net env (User_getCalendars env (user_of db_user)).
Proof.
  intros w. unfold User_getCalendars. simpl.
  destruct (find_user_calendars_error env db_user.1); simpl;
    (split; [apply frame_refl|done]).
Qed.

Lemma in_frame_setStreaksDoneSentToday (db_user : positive * IUser) (value : bool) :
  in_frame net env (setStreaksDoneSentToday env (user_of db_user) value).
Proof.
  intros w. unfold setStreaksDoneSentToday. simpl.
  destruct (update_user_error env db_user.1); simpl;
    [split; [apply frame_refl|done]|].
  destruct (w_users w !! db_user.1) as [doc|] eqn:Hdoc; simpl;
    [|split; [apply frame_refl|done]].
  split; [|done]. repeat split; try done.
  - by apply only_sent_today_insert.
  - exists []. rewrite app_nil_r. split; [done|]. by intros ?%elem_of_nil.
Qed.

Lemma in_frame_push_send (uid : positive) (m : Message) (ps : list SendPromise) :
  in_frame net env (push_send uid m ps).
Proof.
  apply in_frame_then; [by apply in_frame_event|]. intros _. apply in_frame_resolve.
Qed.

(** One turn of the loop, for a user that [getUsers] has built. *)
Lemma in_frame_remind_user (matrix_on : bool) (db_user : positive * IUser)
    (ps : list SendPromise) :
  in_frame net env (remind_user_in net clk env matrix_on (user_of db_user) ps).
Proof.
  unfold remind_user_in.
  destruct (usr_notifications (user_of db_user)) as [n|]; [|apply in_frame_resolve].
  apply in_frame_then; [apply in_frame_awaited, in_frame_getCalendars|].
  intros r. cbv zeta.
  destruct (summarize clk r.1).2.
  - apply in_frame_then.
    + destruct (_ && _); [|apply in_frame_resolve].
      destruct (hour_between _ _ _); [apply in_frame_push_send|apply in_frame_resolve].
    + intros promises. destruct (sent_today _); [|apply in_frame_resolve].
      apply in_frame_then;
        [apply in_frame_awaited, in_frame_setStreaksDoneSentToday|].
      intros r'. apply in_frame_resolve.
  - destruct (_ && _); [|apply in_frame_resolve].
    apply in_frame_then.
    + destruct (_ && _); [apply in_frame_push_send|apply in_frame_resolve].
    + intros promises.
      apply in_frame_then;
        [apply in_frame_awaited, in_frame_setStreaksDoneSentToday|].
      intros r'. apply in_frame_resolve.
Qed.

(** The loop over users that [getUsers] has built. *)
Lemma in_frame_remind_loop (matrix_on : bool) (l : list (positive * IUser)) :
  ∀ ps, in_frame net env
          (for_loop (map user_of l) (remind_user_in net clk env matrix_on) ps).
Proof.
  induction l as [|db_user l IH]; intros ps; simpl; [apply in_frame_resolve|].
  apply in_frame_then; [apply in_frame_remind_user|]. intros ps'. apply IH.
Qed.

(** A sweep, whatever the store and the service answer: the calendars and
    the console are left as they were, the users up to [sent_today]; the
    process ends only on a send rejected before the last statement; and the
    channel is disconnected only when the sweep is fulfilled. *)
Lemma sendReminders_in_any (w : World) :
  w_calendars (sendReminders_in net clk env w).2 = w_calendars w
  ∧ w_console (sendReminders_in net clk env w).2 = w_console w
  ∧ only_sent_today (w_users w) (w_users (sendReminders_in net clk env w).2)
  ∧ exits_on_rejection net env (sendReminders_in net clk env w).1
  ∧ ((sendReminders_in net clk env w).1 ≠ Fulfilled tt →
     Disconnected ∉ new_events w (sendReminders_in net clk env w).2).
Proof.
  destruct (sendReminders_in net clk env w) as [o wf] eqn:Hrun. cbn [fst snd].
  unfold sendReminders_in in Hrun. unfold new_events.
  set (matrix_on := MATRIX_ENABLED env) in *.
  assert (∃ w0, matrix_connect matrix_on w = (Fulfilled tt, w0) ∧ frame w w0)
    as (w0 & Hconn & Hfr0).
  { unfold matrix_connect. destruct matrix_on; eexists; (split; [reflexivity|]);
      [by apply frame_event|apply frame_refl]. }
  unfold then_ at 1 in Hrun. rewrite Hconn in Hrun.
  unfold then_ at 1, getUsers in Hrun.
  destruct (find_users_error env).
  { injection Hrun as <- <-. destruct Hfr0 as (Hc & Hl & Hu & evs & Hm & Hd).
    repeat split; try done. intros _. by rewrite Hm, drop_app_length. }
  unfold then_ at 1 in Hrun.
  destruct (in_frame_remind_loop matrix_on (map_to_list (w_users w0)) [] w0)
    as [Hfr1 Hex1].
  destruct (for_loop _ _ _ _) as [[ps|err|status] w1]; cbn [fst snd] in *.
  - destruct (settle_batch_join env matrix_on ps w1) as (evs2 & Hjoin & _).
    rewrite Hjoin in Hrun. injection Hrun as <- <-.
    destruct (frame_trans _ _ _ Hfr0 Hfr1) as (Hc & Hl & Hu & _).
    repeat split; done.
  - injection Hrun as <- <-.
    destruct (frame_trans _ _ _ Hfr0 Hfr1) as (Hc & Hl & Hu & evs & Hm & Hd).
    repeat split; try done. intros _. by rewrite Hm, drop_app_length.
  - injection Hrun as <- <-.
    destruct (frame_trans _ _ _ Hfr0 Hfr1) as (Hc & Hl & Hu & evs & Hm & Hd).
    repeat split; try done; [apply Hex1|apply Hex1|].
    intros _. by rewrite Hm, drop_app_length.
Qed.

End AnyStore.

(** X1. A sweep of [sendReminders] that is not fulfilled is rejected, or it
    ends the process with status 1, and then a send that the service answers
    before the last statement is rejected, where no handler sees it; in both
    cases the sweep does not come to the disconnection: the channel is left
    connected. *)
Theorem sendReminders_failed_sweep (net : Network) (clk : Clock) (env : Env)
    (w : World) :
  (sendReminders_in net clk env w).1 ≠ Fulfilled tt →
  ((∃ err, (sendReminders_in net clk env w).1 = Rejected err)
   ∨ ((sendReminders_in net clk env w).1 = Exited 1 ∧ early_rejection net env))
  ∧ Disconnected ∉ new_events w (sendReminders_in net clk env w).2.
Proof.
  intros Hnot.
  destruct (sendReminders_in_any net clk env w) as (_ & _ & _ & Hex & Hconn).
  split; [|by apply Hconn].
  destruct (sendReminders_in net clk env w).1 as [[]|err|status]; [done| |].
  - left. by exists err.
  - right. destruct Hex as [-> Hearly]. done.
Qed.

(** The store does not list the users: the sweep is rejected; a send is
    rejected while the sweep awaits the store: the process ends. *)
Lemma sendReminders_failed_sweep_witness :
  (sendReminders_in quiet sunday_night users_down
     (all_done_world (settings "matrix" false))).1
  = Rejected (mkError 500 "connection lost")
  ∧ (sendReminders_in at_once sunday_night second_send_fails two_users_world).1
    = Exited 1
  ∧ Disconnected
    ∉ new_events two_users_world
        (sendReminders_in at_once sunday_night second_send_fails two_users_world).2.
Proof.
  split; [reflexivity|]. split; [vm_compute; reflexivity|].
  apply (sendReminders_failed_sweep at_once sunday_night second_send_fails
           two_users_world).
  vm_compute. discriminate.
Defined.



(** X22. When the store answers, the moment at which the service answers
    the sends does not matter, as long as no send answered before the last
    statement is rejected: the sweep is fulfilled, and it leaves the
    calendars, the users, the console and, the settlements of the sends
    left out, the events of the channel that it leaves when every answer
    arrives at the last statement. *)
Theorem sendReminders_answers_in_time (net : Network) (clk : Clock) (env : Env)
    (w : World) :
  store_ok env →
  no_early_rejection net env →
  (sendReminders_in net clk env w).1 = Fulfilled tt
  ∧ (sendReminders clk env w).1 = Fulfilled tt
  ∧ w_calendars (sendReminders_in net clk env w).2
    = w_calendars (sendReminders clk env w).2
  ∧ w_users (sendReminders_in net clk env w).2 = w_users (sendReminders clk env w).2
  ∧ w_console (sendReminders_in net clk env w).2
    = w_console (sendReminders clk env w).2
  ∧ without_settlements (new_events w (sendReminders_in net clk env w).2)
    = without_settlements (new_events w (sendReminders clk env w).2).
Proof.
  intros Hok Hnet. unfold sendReminders.
  destruct (sendReminders_in_run net clk env Hok Hnet w)
    as (wf & -> & Hc & Hu & Hev & Hl).
  destruct (sendReminders_in_run quiet clk env Hok) with (w := w)
    as (wf' & -> & Hc' & Hu' & Hev' & Hl'); [by intros uid m awaits|].
  cbn [fst snd]. rewrite Hc, Hc', Hl, Hl', Hev, Hev'.
  repeat split; try done.
  apply map_eq. intros k. by rewrite Hu, Hu'.
Qed.

(** No send fails, every answer arrives at the next [await]: the two users
    get their reminder, as when the answers arrive at the end. *)
Lemma sendReminders_answers_in_time_witness :
  (sendReminders_in at_once sunday_night (healthy true) two_users_world).1
  = Fulfilled tt
  ∧ without_settlements
      (new_events two_users_world
         (sendReminders_in at_once sunday_night (healthy true) two_users_world).2)
    = without_settlements
        (new_events two_users_world
           (sendReminders sunday_night (healthy true) two_users_world).2).
Proof.
  destruct (sendReminders_answers_in_time at_once sunday_night (healthy true)
              two_users_world) as (Hful & _ & _ & _ & _ & Hev).
  - repeat split; reflexivity.
  - intros uid m awaits Hk. reflexivity.
  - split; [exact Hful|exact Hev].
Defined.

(** ** The sends of a user in a sweep *)

Lemma for_user_send (uid : positive) : for_user uid (is_send_for uid).
Proof.
  intros [|u m|? ? ?|]; simpl; try done.
  intros ->%Pos.eqb_eq. by eexists.
Qed.

Lemma count_events_le (f : MatrixEvent -> bool) (evs : list MatrixEvent) :
  count_events f evs ≤ length evs.
Proof.
  unfold count_events. induction evs as [|e evs IH]; simpl; [lia|].
  destruct (f e); simpl; lia.
Qed.

Lemma user_messages_one (clk : Clock) (matrix_on : bool) (n : UserNotifications)
    (calendars : list Calendar) :
  length (user_messages clk matrix_on n calendars) ≤ 1.
Proof.
  unfold user_messages.
  destruct (summarize clk calendars).2.
  - destruct (_ && _); simpl; lia.
  - destruct (_ && _); [|simpl; lia]. destruct (_ && _); simpl; lia.
Qed.

(** X3. In a sweep a user gets one message at most: the reminder or the
    all-done congratulation, never both. *)
Theorem sendReminders_one_send (clk : Clock) (env : Env) (w : World)
    (uid : positive) (doc : IUser) :
  store_ok env →
  w_users w !! uid = Some doc →
  count_events (is_send_for uid) (new_events w (sendReminders clk env w).2) ≤ 1.
Proof.
  intros Hok Hdoc.
  rewrite (sendReminders_count uid _ (for_user_send uid) clk env w doc Hok Hdoc).
  etransitivity; [apply count_events_le|].
  rewrite length_map. unfold user_sends. simpl.
  destruct (iu_notifications doc); [|simpl; lia].
  rewrite length_map. apply user_messages_one.
Qed.

Lemma sendReminders_one_send_witness :
  count_events (is_send_for 1)
    (new_events (failing_world (settings "matrix" false))
       (sendReminders sunday_night (healthy true)
          (failing_world (settings "matrix" false))).2) ≤ 1.
Proof.
  apply (sendReminders_one_send sunday_night (healthy true)
           (failing_world (settings "matrix" false)) 1
           (mkIUser "ada" (settings "matrix" false))).
  - repeat split; reflexivity.
  - vm_compute; reflexivity.
Defined.





(** ** The summary of a reminder *)

Lemma summarize_entries_from (clk : Clock) (calendars : list Calendar) :
  ∀ acc : list SummaryEntry * bool,
    (foldl (fun acc calendar =>
              if negb (wants_reminders calendar) then acc
              else if passing (ic_days (cal_doc calendar) !! today clk)
              then (acc.1 ++ [mkSummaryEntry (ic_name (cal_doc calendar)) false
                                (countStreaks clk calendar)], acc.2)
              else (acc.1 ++ [mkSummaryEntry (ic_name (cal_doc calendar)) true
                                (countStreaks clk calendar)], true))
           acc calendars).1
    = acc.1 ++ map (summary_entry clk) (List.filter wants_reminders calendars).
Proof.
  induction calendars as [|c l IH]; intros acc; simpl.
  - by rewrite app_nil_r.
  - rewrite IH. destruct (wants_reminders c); simpl; [|done].
    unfold summary_entry at 2.
    destruct (passing _); simpl; by rewrite <- app_assoc.
Qed.

(** X5. The summary of a reminder has one line for each calendar of the
    user that asks for reminders, done or not, in the order of the
    calendars, and no line for the others; [has_fails] is set exactly when a
    line is a failed one. *)
Theorem summarize_lines (clk : Clock) (calendars : list Calendar) :
  (summarize clk calendars).1
  = map (summary_entry clk) (List.filter wants_reminders calendars)
  ∧ (summarize clk calendars).2 = existsb sum_fail (summarize clk calendars).1.
Proof.
  assert ((summarize clk calendars).1
          = map (summary_entry clk) (List.filter wants_reminders calendars)) as Hlines.
  { unfold summarize. by rewrite summarize_entries_from. }
  split; [done|].
  rewrite Hlines, summarize_has_fails. clear Hlines.
  induction calendars as [|c l IH]; simpl; [done|].
  destruct (wants_reminders c); simpl; by rewrite IH.
Qed.

(** ** The frame of the reconciler *)

Lemma setBreakdays_users_matrix (clk : Clock) (env : Env) (w : World) :
  w_users (setBreakdays clk env w).2 = w_users w
  ∧ w_matrix (setBreakdays clk env w).2 = w_matrix w.
Proof.
  unfold setBreakdays, catch_, then_, getCalendars, request.
  destruct (find_calendars_error env) as [err|] eqn:Hfind; simpl; [done|].
  destruct (breakday_batch_run clk env (map_to_list (w_calendars w)) w)
    as (os & wf & -> & _ & Hu & Hm);
    [apply NoDup_fst_map_to_list | by intros ?? ?%elem_of_map_to_list | done |].
  done.
Qed.

(** X6. Whatever the store answers, a run of the reconciler removes no
    calendar and adds none: every calendar of the store is still there
    after the run, with nothing changed but the entry of today, which is
    left as it was or becomes [breakday]; an id without a calendar before
    the run has none after it; the users and the Matrix channel are left as
    they were. *)
Theorem setBreakdays_frame (clk : Clock) (env : Env) (w : World) :
  (∀ id doc,
     w_calendars w !! id = Some doc →
     ∃ doc',
       w_calendars (setBreakdays clk env w).2 !! id = Some doc'
       ∧ ic_name doc' = ic_name doc
       ∧ ic_user_id doc' = ic_user_id doc
       ∧ ic_agenda doc' = ic_agenda doc
       ∧ ic_notifications doc' = ic_notifications doc
       ∧ (∀ d, d ≠ today clk → ic_days doc' !! d = ic_days doc !! d)
       ∧ (ic_days doc' !! today clk = ic_days doc !! today clk
          ∨ ic_days doc' !! today clk = Some Breakday))
  ∧ (∀ id, w_calendars w !! id = None →
           w_calendars (setBreakdays clk env w).2 !! id = None)
  ∧ w_users (setBreakdays clk env w).2 = w_users w
  ∧ w_matrix (setBreakdays clk env w).2 = w_matrix w.
Proof.
  split; [|split; [|apply setBreakdays_users_matrix]].
  - intros id doc Hdoc. rewrite setBreakdays_calendars, Hdoc. simpl.
    eexists. split; [reflexivity|]. unfold reconcile.
    destruct (find_calendars_error env); [by repeat split; auto|].
    destruct (_ && _); [|by repeat split; auto].
    destruct (update_calendar_error env id); [by repeat split; auto|].
    simpl. repeat split; try done.
    + intros d Hne. by rewrite lookup_insert_ne.
    + right. apply lookup_insert_eq.
  - intros id Hnone. by rewrite setBreakdays_calendars, Hnone.
Qed.

(** The calendar without a task on Sunday is still there after the run; the
    days before are kept, and Sunday is a break day. *)
Lemma setBreakdays_frame_witness :
  ∃ doc',
    w_calendars (setBreakdays sunday_noon (healthy true) sunday_world).2 !! 1%positive
    = Some doc'
    ∧ ic_agenda doc' = ic_agenda rest_on_sunday
    ∧ ic_days doc' !! 2%Z = ic_days rest_on_sunday !! 2%Z.
Proof.
  destruct (setBreakdays_frame sunday_noon (healthy true) sunday_world) as [Hkeep _].
  destruct (Hkeep 1%positive rest_on_sunday)
    as (doc' & Hdoc' & _ & _ & Hagenda & _ & Hdays & _).
  - vm_compute; reflexivity.
  - exists doc'. split; [exact Hdoc'|]. split; [exact Hagenda|].
    apply Hdays. discriminate.
Defined.

(** ** The console of the reconciler *)

Lemma breakday_promise_console (clk : Clock) (env : Env) (id : positive)
    (doc : ICalendar) (w : World) :
  w_calendars w !! id = Some doc →
  w_console (breakday_promise clk env (id, doc) w).2
  = w_console w ++ refused_updates clk env [(id, doc)].
Proof.
  intros Hdoc. unfold breakday_promise, refused_updates, needs_breakday. simpl.
  destruct (negb _); simpl; [|by rewrite app_nil_r].
  destruct (not_success _); simpl; [|by rewrite app_nil_r].
  unfold finally_, catch_. rewrite setDayState_run.
  destruct (update_calendar_error env id); simpl; [done|].
  rewrite Hdoc. simpl. by rewrite app_nil_r.
Qed.

Lemma breakday_batch_console (clk : Clock) (env : Env)
    (l : list (positive * ICalendar)) :
  ∀ w,
    NoDup l.*1 →
    (∀ id doc, (id, doc) ∈ l → w_calendars w !! id = Some doc) →
    find_calendars_error env = None →
    w_console (allSettled (map (breakday_promise clk env) l) w).2
    = w_console w ++ refused_updates clk env l.
Proof.
  induction l as [|[id doc] l IH]; intros w Hnd Hin Hfind.
  - simpl. by rewrite app_nil_r.
  - apply NoDup_cons in Hnd as [Hid Hnd].
    pose proof (breakday_promise_console clk env id doc w) as Hcon.
    destruct (breakday_promise_run clk env id doc w) as (w1 & Hrun & Hcal);
      [apply Hin; left | done |].
    rewrite Hrun in Hcon. simpl in Hcon.
    specialize (IH w1 Hnd).
    destruct (breakday_batch_run clk env l w1 Hnd) as (os & wf & Hall & _);
      [|done|].
    { intros id' doc' Hel. rewrite Hcal.
      rewrite lookup_insert_ne; [apply Hin; by right|].
      intros ->. apply Hid. apply list_elem_of_fmap. by exists (id', doc'). }
    cbn [map allSettled]. rewrite Hrun. rewrite Hall in IH. rewrite Hall.
    simpl in IH |- *. rewrite IH.
    + rewrite Hcon by (apply Hin; left).
      unfold refused_updates. simpl. by rewrite <- app_assoc, app_nil_r.
    + intros id' doc' Hel. rewrite Hcal.
      rewrite lookup_insert_ne; [apply Hin; by right|].
      intros ->. apply Hid. apply list_elem_of_fmap. by exists (id', doc').
    + done.
Qed.

(** X7. When the store lists the calendars, a run of the reconciler prints
    one line for each calendar it had to mark and whose update the store
    refused, with the message of the store, and nothing else: a run without
    a refused update prints nothing. *)
Theorem setBreakdays_console (clk : Clock) (env : Env) (w : World) :
  find_calendars_error env = None →
  w_console (setBreakdays clk env w).2
  = w_console w ++ refused_updates clk env (map_to_list (w_calendars w))
  ∧ ((∀ id, update_calendar_error env id = None) →
     w_console (setBreakdays clk env w).2 = w_console w).
Proof.
  intros Hfind.
  assert (w_console (setBreakdays clk env w).2
          = w_console w ++ refused_updates clk env (map_to_list (w_calendars w)))
    as Hcon.
  { unfold setBreakdays, catch_, then_, getCalendars, request.
    rewrite Hfind. simpl.
    pose proof (breakday_batch_console clk env (map_to_list (w_calendars w)) w
                  (NoDup_fst_map_to_list _)) as Hbatch.
    destruct (breakday_batch_run clk env (map_to_list (w_calendars w)) w)
      as (os & wf & Hall & _);
      [apply NoDup_fst_map_to_list | by intros ?? ?%elem_of_map_to_list | done |].
    rewrite Hall in Hbatch |- *. simpl in *.
    apply Hbatch; [by intros ?? ?%elem_of_map_to_list | done]. }
  split; [done|].
  intros Hup. rewrite Hcon.
  assert (∀ l, refused_updates clk env l = []) as ->; [|by rewrite app_nil_r].
  induction l as [|c l IH]; [done|].
  unfold refused_updates in *. simpl. rewrite IH, Hup.
  by destruct (needs_breakday clk c.2).
Qed.

(** The store refuses the updates: one line, for the calendar without a task
    on Sunday. *)
Lemma setBreakdays_console_witness :
  w_console (setBreakdays sunday_noon updates_down sunday_world).2
  = ["Daemons: connection lost"]
  ∧ w_console (setBreakdays sunday_noon (healthy true) sunday_world).2 = [].
Proof.
  split.
  - destruct (setBreakdays_console sunday_noon updates_down sunday_world eq_refl)
      as [Hlines _].
    rewrite Hlines. vm_compute. reflexivity.
  - destruct (setBreakdays_console sunday_noon (healthy true) sunday_world eq_refl)
      as [_ Hquiet].
    rewrite Hquiet; [reflexivity|]. intros id. reflexivity.
Defined.

(** ** The window of the reminders and of the congratulations *)

(** X8. Outside the window of the user (its bounds, or 00:00 and 24:00 for a
    bound that is missing) a sweep of [sendReminders] starts no reminder for
    the user, whatever the state of the calendars. *)
Theorem sendReminders_reminder_window (clk : Clock) (env : Env) (w : World)
    (uid : positive) (doc : IUser) (n : UserNotifications) :
  store_ok env →
  w_users w !! uid = Some doc →
  iu_notifications doc = Some n →
  hour_between clk (nullish (start_date (matrix n)) "00:00")
                   (nullish (end_date (matrix n)) "24:00") = false →
  count_events (is_reminder_for uid) (new_events w (sendReminders clk env w).2) = 0.
Proof.
  intros Hok Hdoc Hn Hout.
  rewrite (sendReminders_count uid _ (for_user_reminder uid) clk env w doc Hok Hdoc).
  unfold user_sends, user_messages. simpl. rewrite Hn, Hout, andb_false_r.
  destruct (summarize clk _).2; [done|].
  destruct (_ && _); [|done]. by destruct (_ && _).
Qed.

(** A task is failed, at noon: no reminder before 22:00. *)
Lemma sendReminders_reminder_window_witness :
  count_events (is_reminder_for 1)
    (new_events (failing_world (settings "matrix" false))
       (sendReminders sunday_noon (healthy true)
          (failing_world (settings "matrix" false))).2) = 0.
Proof.
  apply (sendReminders_reminder_window sunday_noon (healthy true)
           (failing_world (settings "matrix" false)) 1
           (mkIUser "ada" (settings "matrix" false))
           (mkUserNotifications
              (mkMatrixSettings (Some "!room:matrix.org") (Some "22:00") (Some "06:00"))
              (mkStreaksDone true "matrix" false))).
  - repeat split; reflexivity.
  - vm_compute; reflexivity.
  - reflexivity.
  - reflexivity.
Defined.

(** ** [sendCongratulation], whatever happens *)

Lemma sendCongratulation_store (clk : Clock) (env : Env) (user : User)
    (calendar : Calendar) (w : World) :
  w_calendars (sendCongratulation clk env user calendar w).2 = w_calendars w
  ∧ w_users (sendCongratulation clk env user calendar w).2 = w_users w
  ∧ w_console (sendCongratulation clk env user calendar w).2 = w_console w.
Proof.
  unfold sendCongratulation.
  destruct (recorded_not_success _).
  - by destruct (MATRIX_ENABLED env).
  - destruct (MATRIX_ENABLED env), (truthy_string (user_room user)),
      (hour_between clk (nullish (user_start user) "00:00")
                        (nullish (user_end user) "24:00")); simpl;
      unfold then_, push_send, then_, matrix_event, resolve, settle_batch, then_,
        matrix_disconnect, matrix_event, resolve; simpl;
      unfold send_settles; simpl;
      try destruct (send_error env _ _); done.
Qed.

(** X9. [sendCongratulation], the channel answering the connection, is
    fulfilled whatever the send does, and it writes nothing to the store nor
    to the console. It connects the channel
    before it looks at the status of today: when that status is recorded and
    is not [success], the function returns with the channel connected, and
    the channel is disconnected in every other case. *)
Theorem sendCongratulation_channel (clk : Clock) (env : Env) (user : User)
    (calendar : Calendar) (w : World) :
  (sendCongratulation clk env user calendar w).1 = Fulfilled tt
  ∧ w_calendars (sendCongratulation clk env user calendar w).2 = w_calendars w
  ∧ w_users (sendCongratulation clk env user calendar w).2 = w_users w
  ∧ w_console (sendCongratulation clk env user calendar w).2 = w_console w
  ∧ (MATRIX_ENABLED env = true →
     (recorded_not_success (ic_days (cal_doc calendar) !! today clk) = true →
      new_events w (sendCongratulation clk env user calendar w).2 = [Connected])
     ∧ (recorded_not_success (ic_days (cal_doc calendar) !! today clk) = false →
        last (new_events w (sendCongratulation clk env user calendar w).2)
        = Some Disconnected)).
Proof.
  destruct (sendCongratulation_run clk env user calendar w) as [Hful Hev].
  destruct (sendCongratulation_store clk env user calendar w) as (Hc & Hu & Hl).
  repeat split; try done.
  - intros Hret. by rewrite Hev, H, Hret.
  - intros Hgo. rewrite Hev, H, Hgo, !app_assoc. apply last_snoc.
Qed.

(** A failed day: the channel is left connected; a done day: it is
    disconnected. *)
Lemma sendCongratulation_channel_witness :
  new_events (failing_world (settings "matrix" false))
    (sendCongratulation sunday_night (healthy true) (ada (settings "matrix" false))
       (mkCalendar 2 failed_today) (failing_world (settings "matrix" false))).2
  = [Connected]
  ∧ last (new_events (all_done_world (settings "matrix" false))
            (sendCongratulation sunday_night (healthy true)
               (ada (settings "matrix" false)) (mkCalendar 1 done_today)
               (all_done_world (settings "matrix" false))).2)
    = Some Disconnected.
Proof.
  split.
  - destruct (sendCongratulation_channel sunday_night (healthy true)
                (ada (settings "matrix" false)) (mkCalendar 2 failed_today)
                (failing_world (settings "matrix" false)))
      as (_ & _ & _ & _ & Hchannel).
    destruct (Hchannel eq_refl) as [Hleft _]. apply Hleft. vm_compute; reflexivity.
  - destruct (sendCongratulation_channel sunday_night (healthy true)
                (ada (settings "matrix" false)) (mkCalendar 1 done_today)
                (all_done_world (settings "matrix" false)))
      as (_ & _ & _ & _ & Hchannel).
    destruct (Hchannel eq_refl) as [_ Hclosed]. apply Hclosed. vm_compute; reflexivity.
Defined.

(** X10. Outside the window of the user [sendCongratulation] sends nothing,
    whatever the status of the day. *)
Theorem sendCongratulation_window (clk : Clock) (env : Env) (user : User)
    (calendar : Calendar) (w : World) :
  hour_between clk (nullish (user_start user) "00:00")
                   (nullish (user_end user) "24:00") = false →
  count_events is_send (new_events w (sendCongratulation clk env user calendar w).2) = 0.
Proof.
  intros Hout. rewrite sendCongratulation_count. unfold congratulation_sends.
  rewrite Hout, andb_false_r. by destruct (recorded_not_success _).
Qed.

(** The day is done at noon: no congratulation before 22:00. *)
Lemma sendCongratulation_window_witness :
  count_events is_send
    (new_events (all_done_world (settings "matrix" false))
       (sendCongratulation sunday_noon (healthy true) (ada (settings "matrix" false))
          (mkCalendar 1 done_today) (all_done_world (settings "matrix" false))).2) = 0.
Proof.
  apply (sendCongratulation_window sunday_noon (healthy true)
           (ada (settings "matrix" false)) (mkCalendar 1 done_today)
           (all_done_world (settings "matrix" false))).
  reflexivity.
Defined.

(** ** The [User] class and the store *)

Lemma NoDup_fst_filter {A : Type} (P : positive * A → Prop)
    `{∀ x, Decision (P x)} (l : list (positive * A)) :
  NoDup l.*1 → NoDup (filter P l).*1.
Proof.
  induction l as [|x l IH]; intros Hnd; [done|].
  simpl in Hnd. apply NoDup_cons in Hnd as [Hx Hnd].
  rewrite filter_cons. destruct (decide (P x)); [|by apply IH].
  simpl. apply NoDup_cons. split; [|by apply IH].
  intros (y & Hy & Hin)%list_elem_of_fmap. apply Hx.
  apply list_elem_of_fmap. exists y. split; [done|].
  by apply list_elem_of_filter in Hin as [_ Hin].
Qed.

(** X11. When the store answers, [getUsers] resolves, without a change of
    the world, with one user for each user document of the store, each under
    its id: every user of the list is initialized and carries the name and
    the notification settings of its document. *)
Theorem getUsers_lists_store (env : Env) (w : World) :
  find_users_error env = None →
  ∃ users,
    getUsers env w = (Fulfilled users, w)
    ∧ length users = size (w_users w)
    ∧ NoDup (map usr_id users)
    ∧ ∀ u, u ∈ users
           ↔ initialized u = true
             ∧ weekStartsMonday u = true
             ∧ ∃ doc, w_users w !! usr_id u = Some doc
                      ∧ usr_username u = Some (iu_username doc)
                      ∧ usr_notifications u = iu_notifications doc.
Proof.
  intros Hfind. exists (map user_of (map_to_list (w_users w))).
  unfold getUsers. rewrite Hfind. split; [done|].
  split; [by rewrite length_map, length_map_to_list|].
  split.
  - rewrite map_map. simpl. apply NoDup_fst_map_to_list.
  - intros u. rewrite list_elem_of_fmap. split.
    + intros ([uid doc] & -> & Hin). apply elem_of_map_to_list in Hin.
      simpl. repeat split; try done. by exists doc.
    + intros (Hinit & Hweek & doc & Hdoc & Hname & Hnot).
      exists (usr_id u, doc). split; [|by apply elem_of_map_to_list].
      destruct u. simpl in *. by subst.
Qed.

Lemma getUsers_lists_store_witness :
  ∃ users,
    getUsers (healthy true) sunday_world = (Fulfilled users, sunday_world)
    ∧ length users = 1.
Proof.
  destruct (getUsers_lists_store (healthy true) sunday_world eq_refl)
    as (users & Hrun & Hlen & _).
  exists users. split; [exact Hrun|]. rewrite Hlen. vm_compute. reflexivity.
Defined.

(** X12. For an initialized user, when the store answers, [getCalendars]
    resolves, without a change of the world, with the calendars of the store
    whose [user_id] is the id of the user, each once, as the store holds
    them: never a calendar of another user. *)
Theorem User_getCalendars_own (env : Env) (this : User) (w : World) :
  initialized this = true →
  find_user_calendars_error env (usr_id this) = None →
  ∃ calendars,
    User_getCalendars env this w = (Fulfilled calendars, w)
    ∧ NoDup (map cal_id calendars)
    ∧ ∀ c, c ∈ calendars
           ↔ w_calendars w !! cal_id c = Some (cal_doc c)
             ∧ ic_user_id (cal_doc c) = usr_id this.
Proof.
  intros Hinit Hfind. exists (calendars_of (w_calendars w) (usr_id this)).
  unfold User_getCalendars. rewrite Hinit, Hfind. simpl.
  split; [done|]. split; [|apply elem_of_calendars_of].
  unfold calendars_of. rewrite map_map. simpl.
  apply (NoDup_fst_filter _ _ (NoDup_fst_map_to_list _)).
Qed.

Lemma User_getCalendars_own_witness :
  ∃ calendars,
    User_getCalendars (healthy true) (ada None) sunday_world
    = (Fulfilled calendars, sunday_world)
    ∧ mkCalendar 1 rest_on_sunday ∈ calendars.
Proof.
  destruct (User_getCalendars_own (healthy true) (ada None) sunday_world
              eq_refl eq_refl) as (calendars & Hrun & _ & Hown).
  exists calendars. split; [exact Hrun|].
  apply Hown. split; vm_compute; reflexivity.
Defined.

(** X13. For an initialized user, when the store answers, [getCalendarById]
    leaves the world as it was and resolves exactly with the calendar of
    that id among the calendars of the user, those that [getCalendars]
    lists; for a calendar of another user it rejects with the code 403, for
    an id the store does not hold with the code 404. *)
Theorem getCalendarById_own (this : User) (id : positive) (w : World) :
  initialized this = true →
  (getCalendarById None this id w).2 = w
  ∧ (∀ c, (getCalendarById None this id w).1 = Fulfilled c
          ↔ cal_id c = id ∧ c ∈ calendars_of (w_calendars w) (usr_id this))
  ∧ (∀ doc, w_calendars w !! id = Some doc →
            ic_user_id doc ≠ usr_id this →
            (getCalendarById None this id w).1
            = Rejected (mkError 403 "You don't own this calendar"))
  ∧ (w_calendars w !! id = None →
     (getCalendarById None this id w).1
     = Rejected (mkError 404 "Calendar doesn't exists")).
Proof.
  intros Hinit. unfold getCalendarById. rewrite Hinit. simpl.
  destruct (w_calendars w !! id) as [doc|] eqn:Hdoc.
  - destruct (Pos.eqb_spec (ic_user_id doc) (usr_id this)) as [Hown|Hother]; simpl.
    + split; [done|]. split; [|split; [|done]].
      * intros c. rewrite elem_of_calendars_of. split.
        -- intros [= <-]. by simpl.
        -- intros (<- & Hc & _). rewrite Hdoc in Hc. injection Hc as ->.
           by destruct c.
      * intros doc' [= <-] Hne. done.
    + split; [done|]. split; [|split; [done|done]].
      intros c. rewrite elem_of_calendars_of. split; [done|].
      intros (<- & Hc & Hu). rewrite Hdoc in Hc. injection Hc as ->. done.
  - split; [done|]. split; [|split; [done|done]].
    intros c. rewrite elem_of_calendars_of. split; [done|].
    intros (<- & Hc & _). by rewrite Hdoc in Hc.
Qed.

(** The user of the scenario reads its calendar; another user is refused. *)
Lemma getCalendarById_own_witness :
  (getCalendarById None (ada None) 1 sunday_world).1
  = Fulfilled (mkCalendar 1 rest_on_sunday)
  ∧ (getCalendarById None (user_of (2%positive, mkIUser "bob" None)) 1 sunday_world).1
    = Rejected (mkError 403 "You don't own this calendar").
Proof.
  split.
  - destruct (getCalendarById_own (ada None) 1 sunday_world eq_refl)
      as (_ & Hget & _).
    apply Hget. split; [reflexivity|].
    apply elem_of_calendars_of. split; vm_compute; reflexivity.
  - destruct (getCalendarById_own (user_of (2%positive, mkIUser "bob" None)) 1
                sunday_world eq_refl) as (_ & _ & Hother & _).
    apply (Hother rest_on_sunday); [vm_compute; reflexivity|].
    vm_compute. discriminate.
Defined.

(** What a fulfilled [addCalendar] has done. *)
Lemma addCalendar_inv (env : Env) (this : User) (name : string) (w w' : World)
    (calendar : Calendar) :
  addCalendar env this name w = (Fulfilled calendar, w') →
  initialized this = true
  ∧ find_user_error env (usr_id this) = None
  ∧ is_Some (w_users w !! usr_id this)
  ∧ save_calendar_error env = None
  ∧ calendar = mkCalendar (fresh (dom (w_calendars w)))
                          (new_calendar_doc name (usr_id this))
  ∧ w' = mkWorld (<[cal_id calendar := cal_doc calendar]> (w_calendars w))
                 (w_users w) (w_console w) (w_matrix w).
Proof.
  unfold addCalendar. destruct (initialized this); simpl; [|discriminate].
  unfold catch_, then_, getUserById, save_calendar, resolve, reject.
  destruct (find_user_error env (usr_id this)); [discriminate|].
  destruct (w_users w !! usr_id this); [|discriminate].
  destruct (save_calendar_error env); [discriminate|].
  intros [= <- <-]. simpl. repeat split; done.
Qed.

Lemma calendars_of_insert (calendars : gmap positive ICalendar) (id : positive)
    (doc : ICalendar) :
  calendars !! id = None →
  length (calendars_of (<[id := doc]> calendars) (ic_user_id doc))
  = S (length (calendars_of calendars (ic_user_id doc))).
Proof.
  intros Hnone. unfold calendars_of. rewrite !length_map.
  rewrite (map_to_list_insert calendars id doc Hnone).
  by rewrite filter_cons_True.
Qed.

(** X14. The calendar that [addCalendar] resolves with can be read back:
    [getCalendarById], for the same user and the id of the calendar,
    resolves with that calendar. The calendar has the given name and belongs
    to the user, whose list of calendars is longer by one; the other
    calendars and the users are left as they were. *)
Theorem addCalendar_read_back (env : Env) (this : User) (name : string)
    (w w' : World) (calendar : Calendar) :
  addCalendar env this name w = (Fulfilled calendar, w') →
  getCalendarById None this (cal_id calendar) w' = (Fulfilled calendar, w')
  ∧ ic_name (cal_doc calendar) = name
  ∧ ic_user_id (cal_doc calendar) = usr_id this
  ∧ length (calendars_of (w_calendars w') (usr_id this))
    = S (length (calendars_of (w_calendars w) (usr_id this)))
  ∧ (∀ id, id ≠ cal_id calendar → w_calendars w' !! id = w_calendars w !! id)
  ∧ w_users w' = w_users w.
Proof.
  intros (Hinit & _ & _ & _ & -> & ->)%addCalendar_inv. simpl.
  assert (w_calendars w !! fresh (dom (w_calendars w)) = None) as Hnew
    by apply not_elem_of_dom, is_fresh.
  repeat split; try done.
  - unfold getCalendarById. rewrite Hinit. simpl.
    rewrite lookup_insert_eq. simpl. by rewrite Pos.eqb_refl.
  - apply (calendars_of_insert _ _ (new_calendar_doc name (usr_id this)) Hnew).
  - intros id Hne. by rewrite lookup_insert_ne.
Qed.

Lemma addCalendar_read_back_witness :
  ∃ calendar w',
    addCalendar (healthy true) (ada None) "swim" sunday_world = (Fulfilled calendar, w')
    ∧ getCalendarById None (ada None) (cal_id calendar) w' = (Fulfilled calendar, w')
    ∧ ic_name (cal_doc calendar) = "swim".
Proof.
  eexists _, _. split; [vm_compute; reflexivity|].
  edestruct (addCalendar_read_back (healthy true) (ada None) "swim" sunday_world)
    as (Hback & Hname & _); [vm_compute; reflexivity|].
  split; [exact Hback|exact Hname].
Defined.

(** X15. [addCalendar] is fulfilled exactly when the user is initialized,
    the store holds the user and answers the two requests; in every other
    case the calendars, the users and the channel are left as they were. *)
Theorem addCalendar_all_or_nothing (env : Env) (this : User) (name : string)
    (w : World) :
  ((∃ calendar, (addCalendar env this name w).1 = Fulfilled calendar)
   ↔ initialized this = true
     ∧ find_user_error env (usr_id this) = None
     ∧ is_Some (w_users w !! usr_id this)
     ∧ save_calendar_error env = None)
  ∧ ((∀ calendar, (addCalendar env this name w).1 ≠ Fulfilled calendar) →
     w_calendars (addCalendar env this name w).2 = w_calendars w
     ∧ w_users (addCalendar env this name w).2 = w_users w
     ∧ w_matrix (addCalendar env this name w).2 = w_matrix w).
Proof.
  unfold addCalendar. destruct (initialized this); simpl.
  2: { split; [split; [by intros [? ?]|by intros [? _]]|done]. }
  unfold catch_, then_, getUserById, save_calendar, resolve, reject.
  destruct (find_user_error env (usr_id this)); simpl.
  { split; [split; [by intros [? ?]|by intros (_ & ? & _)]|done]. }
  destruct (w_users w !! usr_id this); simpl.
  2: { split; [split; [by intros [? ?]|by intros (_ & _ & [? ?] & _)]|done]. }
  destruct (save_calendar_error env); simpl.
  { split; [split; [by intros [? ?]|by intros (_ & _ & _ & ?)]|done]. }
  split; [split; [done|by eexists]|].
  intros Hnot. by edestruct Hnot.
Qed.

(** The store refuses the new document: nothing is stored. *)
Lemma addCalendar_all_or_nothing_witness :
  w_calendars (addCalendar (healthy true) (new_User 1) "swim" sunday_world).2
  = w_calendars sunday_world.
Proof.
  destruct (addCalendar_all_or_nothing (healthy true) (new_User 1) "swim" sunday_world)
    as [_ Hnothing].
  apply Hnothing. intros calendar. vm_compute. discriminate.
Defined.

(** ** A new calendar and the daemons *)

Lemma getDay_range (d : Z) : getDay d < 7.
Proof.
  unfold getDay.
  pose proof (Z.mod_pos_bound (d + 4) 7 ltac:(lia)). lia.
Qed.

Lemma every_day_expected (d : Z) :
  agenda_expected [1; 1; 1; 1; 1; 1; 1]%Z (getDay d) = true.
Proof.
  pose proof (getDay_range d) as Hlt.
  destruct (getDay d) as [|[|[|[|[|[|[|n]]]]]]]; try reflexivity. lia.
Qed.

(** X16. The reconciler never marks a calendar as [addCalendar] has created
    it: its agenda expects a task on every day of the week, so that a run of
    the reconciler, on any day and whatever the store answers, leaves the
    new calendar as it is. *)
Theorem addCalendar_then_setBreakdays (env env' : Env) (clk : Clock) (this : User)
    (name : string) (w w' : World) (calendar : Calendar) :
  addCalendar env this name w = (Fulfilled calendar, w') →
  w_calendars (setBreakdays clk env' w').2 !! cal_id calendar
  = Some (cal_doc calendar).
Proof.
  intros (_ & _ & _ & _ & -> & ->)%addCalendar_inv.
  rewrite setBreakdays_calendars. simpl. rewrite lookup_insert_eq. simpl.
  unfold reconcile. destruct (find_calendars_error env'); [done|].
  simpl. by rewrite every_day_expected.
Qed.

Lemma addCalendar_then_setBreakdays_witness :
  w_calendars
    (setBreakdays sunday_noon (healthy true)
       (addCalendar (healthy true) (ada None) "swim" sunday_world).2).2 !! 3%positive
  = Some (new_calendar_doc "swim" 1).
Proof.
  apply (addCalendar_then_setBreakdays (healthy true) (healthy true) sunday_noon
           (ada None) "swim" sunday_world
           (addCalendar (healthy true) (ada None) "swim" sunday_world).2
           (mkCalendar 3 (new_calendar_doc "swim" 1))).
  vm_compute. reflexivity.
Defined.



(** ** The reconciler, then the reminders *)


(** ** The reconciler, then the reminders *)

Lemma reconcile_passes (clk : Clock) (env : Env) (id : positive) (doc : ICalendar) :
  find_calendars_error env = None →
  update_calendar_error env id = None →
  passing_or_rest clk doc →
  ∃ state, ic_days (reconcile clk env id doc) !! today clk = Some state
           ∧ state ≠ Fail.
Proof.
  intros Hfind Hupd Hcase. unfold reconcile. rewrite Hfind, Hupd.
  destruct Hcase as [Hrest|(state & Hst & Hne)].
  - rewrite Hrest. simpl.
    destruct (ic_days doc !! today clk) as [[]|] eqn:Hst; simpl;
      try (exists Breakday; by rewrite lookup_insert_eq).
    by exists Success.
  - destruct (_ && _).
    + exists Breakday. simpl. by rewrite lookup_insert_eq.
    + by exists state.
Qed.

(** X18. After a run of the reconciler that the store has answered, a
    calendar without a task on the day does not count as failed: a user
    whose calendars that ask for reminders each have a status other than
    [fail] or no task on that day gets no reminder from a sweep of
    [sendReminders] on the same day. *)
Theorem setBreakdays_then_sendReminders (clk clk' : Clock) (env env' : Env)
    (w : World) (uid : positive) (doc : IUser) :
  find_calendars_error env = None →
  (∀ id, update_calendar_error env id = None) →
  store_ok env' →
  today clk' = today clk →
  w_users w !! uid = Some doc →
  (∀ id calendar,
     w_calendars w !! id = Some calendar →
     ic_user_id calendar = uid →
     wants_reminders (mkCalendar id calendar) = true →
     passing_or_rest clk calendar) →
  count_events (is_reminder_for uid)
    (new_events (setBreakdays clk env w).2
       (sendReminders clk' env' (setBreakdays clk env w).2).2) = 0.
Proof.
  intros Hfind Hupd Hok Hday Hdoc Hall.
  destruct (setBreakdays_users_matrix clk env w) as [Husers _].
  assert (w_users (setBreakdays clk env w).2 !! uid = Some doc) as Hdoc1
    by by rewrite Husers.
  assert (all_passing clk' (setBreakdays clk env w).2 uid) as Hpass.
  { intros id calendar'. rewrite setBreakdays_calendars, Hday.
    destruct (w_calendars w !! id) as [calendar|] eqn:Hcal; simpl; [|done].
    intros [= <-] Hu Hr.
    apply reconcile_passes; [done|done|].
    apply (Hall id calendar Hcal).
    - revert Hu. unfold reconcile. rewrite Hfind, Hupd. by destruct (_ && _).
    - revert Hr. unfold reconcile, wants_reminders. simpl.
      rewrite Hfind, Hupd. by destruct (_ && _). }
  apply summarize_passing in Hpass.
  rewrite (sendReminders_count uid _ (for_user_reminder uid) clk' env' _ doc Hok Hdoc1).
  unfold user_sends, user_messages. cbn [fst snd].
  destruct (iu_notifications doc); [|done].
  rewrite Hpass. destruct (_ && _); [|done]. by destruct (_ && _).
Qed.

(** On Sunday the calendar without a task that day has no status: after
    the reconciler it does not bring a reminder. *)
Lemma setBreakdays_then_sendReminders_witness :
  count_events (is_reminder_for 1)
    (new_events (setBreakdays sunday_night (healthy true) sunday_world).2
       (sendReminders sunday_night (healthy true)
          (setBreakdays sunday_night (healthy true) sunday_world).2).2) = 0.
Proof.
  apply (setBreakdays_then_sendReminders sunday_night sunday_night
           (healthy true) (healthy true) sunday_world 1
           (mkIUser "ada" (settings "matrix" false))).
  - reflexivity.
  - intros id. reflexivity.
  - repeat split; reflexivity.
  - reflexivity.
  - vm_compute; reflexivity.
  - intros id calendar Hcal _ _.
    unfold sunday_world, world_of in Hcal. simpl in Hcal.
    apply lookup_insert_Some in Hcal as [[_ <-]|[_ Hcal]].
    + left. vm_compute; reflexivity.
    + apply lookup_insert_Some in Hcal as [[_ <-]|[_ Hcal]].
      * right. exists Success. split; [vm_compute; reflexivity|discriminate].
      * by rewrite lookup_empty in Hcal.
Defined.

(** ** The login form *)

Lemma is_empty_false (s : string) : Login.is_empty s = false ↔ s ≠ "".
Proof.
  unfold Login.is_empty. destruct s; simpl; split; done.
Qed.

(** X19. In the login form and in the register form, a submit that is
    refused is explained: [isSubmitAuthorized] answers [true] exactly when
    it adds no message to the errors of the form. For another type of form
    it answers [false], with or without a message. *)
Theorem isSubmitAuthorized_explains (d : Login.Data) :
  (Login.type d = "login" ∨ Login.type d = "register" →
   ((Login.isSubmitAuthorized d).1 = true
    ↔ Login.errors (Login.isSubmitAuthorized d).2 = Login.errors d))
  ∧ (Login.type d ≠ "login" → Login.type d ≠ "register" →
     (Login.isSubmitAuthorized d).1 = false).
Proof.
  unfold Login.isSubmitAuthorized, Login.push_error, Login.set_errors.
  split.
  - intros Htype.
    destruct (Login.is_empty (Login.username d)) eqn:Hu,
      (Login.is_empty (Login.password d)) eqn:Hp; simpl; rewrite ?Hu, ?Hp; simpl;
      destruct Htype as [-> | ->]; simpl; rewrite ?Hu, ?Hp; simpl;
      try (destruct (Login.is_empty (Login.passwordRepeat d)) eqn:Hr; simpl;
           try destruct (String.eqb (Login.password d) (Login.passwordRepeat d))
             eqn:He;
           simpl; rewrite ?Hu, ?Hp, ?Hr, ?He; simpl);
      split; try done; intros Heq; exfalso;
      apply (f_equal length) in Heq; rewrite !length_app in Heq;
      simpl in Heq; lia.
  - intros Hlogin Hregister.
    apply String.eqb_neq in Hlogin, Hregister.
    destruct (Login.is_empty (Login.username d)); simpl;
      destruct (Login.is_empty (Login.password d)); simpl;
      by rewrite Hlogin, Hregister.
Qed.

(** The register form with two different passwords. *)
Lemma isSubmitAuthorized_explains_witness :
  (Login.isSubmitAuthorized
     (Login.mkData "register" false [] "ada" "secret" "secrot")).1 = false
  ∧ (Login.isSubmitAuthorized (Login.mkData "reset" false [] "ada" "secret" "")).1
    = false.
Proof.
  split.
  - destruct (isSubmitAuthorized_explains
                (Login.mkData "register" false [] "ada" "secret" "secrot"))
      as [Hiff _].
    apply not_true_is_false. intros Hauth.
    apply Hiff in Hauth; [|right; reflexivity]. vm_compute in Hauth. discriminate.
  - destruct (isSubmitAuthorized_explains
                (Login.mkData "reset" false [] "ada" "secret" ""))
      as [_ Hother].
    apply Hother; vm_compute; discriminate.
Defined.

Lemma isSubmitAuthorized_fields (d : Login.Data) :
  (Login.isSubmitAuthorized d).1 = true →
  Login.username d ≠ "" ∧ Login.password d ≠ ""
  ∧ (Login.type d = "register" → Login.passwordRepeat d = Login.password d)
  ∧ Login.username (Login.isSubmitAuthorized d).2 = Login.username d
  ∧ Login.password (Login.isSubmitAuthorized d).2 = Login.password d
  ∧ Login.passwordRepeat (Login.isSubmitAuthorized d).2 = Login.passwordRepeat d
  ∧ Login.errors (Login.isSubmitAuthorized d).2 = Login.errors d.
Proof.
  unfold Login.isSubmitAuthorized, Login.push_error, Login.set_errors.
  rewrite <- !is_empty_false.
  destruct (Login.is_empty (Login.username d)) eqn:Hu; simpl;
    destruct (Login.is_empty (Login.password d)) eqn:Hp; simpl;
    destruct (String.eqb (Login.type d) "login") eqn:Hl; simpl;
    rewrite ?Hu, ?Hp; simpl; try done;
    try destruct (String.eqb (Login.type d) "register") eqn:Hr; simpl; try done;
    try destruct (Login.is_empty (Login.passwordRepeat d)) eqn:He; simpl;
    rewrite ?Hu, ?Hp, ?He; simpl; try done;
    try destruct (String.eqb (Login.password d) (Login.passwordRepeat d)) eqn:Hq;
    simpl; rewrite ?Hu, ?Hp, ?He, ?Hq; simpl; try done;
    intros _; repeat split; try done; intros Hreg;
    apply String.eqb_eq in Hl || apply String.eqb_eq in Hq; congruence.
Qed.

(** X20. The forms send no request with an empty field: when [login] or
    [register] sends a request, the username and the password are not
    empty and the request carries them as they were typed; for the register
    form the repeated password is the password. *)
Theorem login_form_requests (d : Login.Data) (url : string) (fields : list string) :
  (∀ response,
     Login.Fetch url fields ∈ (Login.login response d).2 →
     url = "/login" ∧ fields = [Login.username d; Login.password d]
     ∧ Login.username d ≠ "" ∧ Login.password d ≠ "")
  ∧ (∀ response,
       Login.Fetch url fields ∈ (Login.register response d).2 →
       url = "/register"
       ∧ fields = [Login.username d; Login.password d; Login.passwordRepeat d]
       ∧ Login.username d ≠ "" ∧ Login.password d ≠ ""
       ∧ (Login.type d = "register" → Login.passwordRepeat d = Login.password d)).
Proof.
  split; intros response; [unfold Login.login|unfold Login.register];
    destruct (Login.isSubmitAuthorized (Login.set_errors [] d)).1 eqn:Hauth; simpl;
    try (by intros ?%elem_of_nil);
    apply isSubmitAuthorized_fields in Hauth
      as (Hu & Hp & Hr & Heu & Hep & Her & _); simpl in *.
  - destruct response as [status|]; [destruct (Login.res_ok status);
      [|destruct (_ || _)]|]; simpl; rewrite Heu, Hep; intros Hin;
      repeat (apply elem_of_cons in Hin as [Hin|Hin]);
      try (by apply elem_of_nil in Hin); try discriminate;
      by injection Hin as -> ->.
  - destruct response as [[status data]|]; [destruct (Login.res_ok status);
      [|destruct (_ =? _)%nat; [|destruct data as [|[message_|]]]]|]; simpl;
      rewrite Heu, Hep, Her; intros Hin;
      repeat (apply elem_of_cons in Hin as [Hin|Hin]);
      try (by apply elem_of_nil in Hin); try discriminate;
      by injection Hin as -> ->.
Qed.

Lemma login_form_requests_witness :
  Login.username (Login.mkData "login" false [] "ada" "secret" "") ≠ ""
  ∧ Login.password (Login.mkData "login" false [] "ada" "secret" "") ≠ "".
Proof.
  destruct (login_form_requests (Login.mkData "login" false [] "ada" "secret" "")
              "/login" ["ada"; "secret"]) as [Hlogin _].
  destruct (Hlogin (Some 200)) as (_ & _ & Hu & Hp).
  - vm_compute. left.
  - split; [exact Hu|exact Hp].
Defined.

(** X21. When the request of [login] is answered, the form is no longer
    loading, it redirects to the dashboard exactly when the answer is in the
    range 200-299, and it shows exactly one error otherwise. When [fetch]
    rejects, the form stays loading, and [changeType] then does nothing. *)
Theorem login_answered (d : Login.Data) :
  (Login.isSubmitAuthorized (Login.set_errors [] d)).1 = true →
  (∀ status,
     Login.loading (Login.login (Some status) d).1 = false
     ∧ (Login.Redirect "/dashboard" ∈ (Login.login (Some status) d).2
        ↔ Login.res_ok status = true)
     ∧ length (Login.errors (Login.login (Some status) d).1)
       = (if Login.res_ok status then 0 else 1))
  ∧ Login.loading (Login.login None d).1 = true
  ∧ ∀ t, Login.changeType t (Login.login None d).1 = ((Login.login None d).1, []).
Proof.
  intros Hauth.
  destruct (isSubmitAuthorized_fields _ Hauth) as (_ & _ & _ & _ & _ & _ & Herr).
  simpl in Herr.
  unfold Login.login. rewrite Hauth. simpl. split; [|split; [done|done]].
  intros status. destruct (Login.res_ok status); simpl.
  - rewrite Herr. repeat split; try done. intros _.
    apply elem_of_cons. right. apply elem_of_cons. by left.
  - destruct (_ || _); simpl; rewrite Herr; repeat split; try done;
      intros Hin; apply elem_of_cons in Hin as [Hin|Hin]; try done;
      by apply elem_of_nil in Hin.
Qed.

Lemma login_answered_witness :
  Login.loading
    (Login.login (Some 401) (Login.mkData "login" false [] "ada" "secret" "")).1 = false
  ∧ Login.loading
      (Login.login None (Login.mkData "login" false [] "ada" "secret" "")).1 = true.
Proof.
  destruct (login_answered (Login.mkData "login" false [] "ada" "secret" ""))
    as (Hanswer & Hstuck & _); [vm_compute; reflexivity|].
  split; [apply (Hanswer 401)|exact Hstuck].
Defined.
